(** * ChatWithDocs: the client state machine of src/components/ChatWithDocs.tsx

    The component keeps three collections (transcript, document list,
    selection) and talks to a retrieval backend over HTTP.  Handlers are
    embedded as state transformers in a small state monad.  An [async]
    handler is split at its [await]: the part before it issues the request
    and parks a task; the part after it ([_then], [_catch]) runs when the
    response arrives as an event.  Between the two, any other event may be
    handled.

    - A [useState] setter takes effect where it is called, in program order.
      The handlers read [inputMessage], [uploadedDocuments] and
      [selectedDocuments] once, at their start, as the closure of the last
      render does.
    - [Date.now()], the responses and the order in which they arrive are
      inputs of the events.  Response bodies have the shapes the component
      reads: [documents], [filename], [answer] and [sources].
    - [Promise.all] is fulfilled when its last promise is fulfilled and is
      rejected by the first rejection; what settles afterwards is dropped.
    - The state carries a trace of what goes out and comes in (requests,
      responses, transcript entries) in the order it happens.
    - [console.error], the textarea height and scrolling are left out. *)

From Stdlib Require Import String Ascii DecimalString PrimFloat.
From Stdlib Require Import List Bool Arith ZArith NArith Lia Permutation.
From Stdlib Require Import RelationClasses.
Import ListNotations.

(** ** JavaScript strings: sequences of UTF-16 code units *)

Module Js.

Definition str := list N.

Definition lit (s : string) : str :=
  map N_of_ascii (list_ascii_of_string s).

Fixpoint eqb (a b : str) : bool :=
  match a, b with
  | [], [] => true
  | x :: a', y :: b' => N.eqb x y && eqb a' b'
  | _, _ => false
  end.

(** [Boolean(s)] for a string: only the empty string is falsy. *)
Definition truthy (s : str) : bool :=
  match s with [] => false | _ :: _ => true end.

(** WhiteSpace and LineTerminator code points of ECMAScript, the ones
    [String.prototype.trim] strips. *)
Definition is_space (c : N) : bool :=
  ((9 <=? c) && (c <=? 13) || (c =? 32) || (c =? 160) || (c =? 5760)
   || (8192 <=? c) && (c <=? 8202) || (c =? 8232) || (c =? 8233)
   || (c =? 8239) || (c =? 8287) || (c =? 12288) || (c =? 65279))%N.

Fixpoint trimStart (s : str) : str :=
  match s with
  | c :: s' => if is_space c then trimStart s' else s
  | [] => []
  end.

Definition trimEnd (s : str) : str := rev (trimStart (rev s)).

Definition trim (s : str) : str := trimEnd (trimStart s).

(** [arr.join(sep)] on an array of strings. *)
Fixpoint join (sep : str) (l : list str) : str :=
  match l with
  | [] => []
  | [x] => x
  | x :: rest => x ++ sep ++ join sep rest
  end.

(** [String(n)] for a non-negative integer such as [arr.length]. *)
Definition of_nat (n : nat) : str :=
  lit (NilEmpty.string_of_uint (Nat.to_uint n)).

(** [String(z)] for an integer-valued number such as [Date.now()]. *)
Definition of_Z (z : Z) : str :=
  match z with
  | Z0 => lit "0"
  | Zpos p => of_nat (Pos.to_nat p)
  | Zneg p => lit "-" ++ of_nat (Pos.to_nat p)
  end.

(** [a || b] on optional strings: the first operand when it is truthy. *)
Definition or (a b : option str) : option str :=
  match a with
  | Some s => if truthy s then a else b
  | None => b
  end.

(** [s] occurs inside [t]. *)
Definition occurs_in (s t : str) : Prop := exists pre post, t = pre ++ s ++ post.

End Js.

(** ** Data model (the interfaces of the component) *)

Record Document := mkDocument {
  id : option Js.str;
  doc_id : option Js.str;
  name : option Js.str;
  filename : option Js.str;
  size : option Z;
  type : option Js.str;
  status : option Js.str;
  total_chunks : option Z
}.

Inductive MessageType := user | ai | system.

Record Source := mkSource {
  src_filename : Js.str;
  src_text : Js.str;
  src_similarity : option float
}.

Record Message := mkMessage {
  msg_id : Z;
  msg_type : MessageType;
  content : Js.str;
  sources : option (list Source)
}.

(** A browser [File]: the metadata the component reads. *)
Record File := mkFile {
  file_name : Js.str;
  file_size : Z;
  file_type : Js.str
}.

(** ** The backend interface *)

Inductive Request :=
| GetDocuments (user : Js.str)
    (* axios.get(`${API_BASE_URL}/upload/documents/${userId}`) *)
| PostUpload (file : File) (user_id : Js.str)
    (* axios.post(`${API_BASE_URL}/upload`, formData) *)
| PostQuery (user_id query : Js.str) (doc_ids : list Js.str) (top_k : Z)
    (* axios.post(`${API_BASE_URL}/query`, {...}) *)
| DeleteDocuments (user : Js.str).
    (* axios.delete(`${API_BASE_URL}/upload/documents/${userId}`) *)

Record ErrorData := mkErrorData { detail : option Js.str }.
Record ErrorResponse := mkErrorResponse { data : option ErrorData }.
Record AxiosError := mkAxiosError {
  response : option ErrorResponse;
  message : Js.str
}.

Inductive Outcome (A : Type) :=
| Fulfilled (body : A)
| Rejected (error : AxiosError).
Arguments Fulfilled {A} body.
Arguments Rejected {A} error.

Record QueryData := mkQueryData {
  answer : Js.str;
  answer_sources : option (list Source)
}.

(** [error.response?.data?.detail || error.message] *)
Definition error_text (e : AxiosError) : Js.str :=
  let d := match response e with
           | Some r => match data r with Some d => detail d | None => None end
           | None => None
           end in
  match Js.or d (Some (message e)) with
  | Some s => s
  | None => []
  end.

(** ** Component state and its environment *)

(** One promise of [uploadPromises]: the request of [file] is in flight, or
    the callback has returned the optimistic record. *)
Inductive UploadPromise :=
| Pending (file : File) (rid : nat)
| Resolved (doc : Document).

(** A handler suspended at its [await]. *)
Inductive Task :=
| AwaitList (rid : nat)
| AwaitUploads (acceptedFiles : list File) (uploadPromises : list UploadPromise)
| AwaitQuery (rid : nat)
| AwaitDelete (rid : nat).

(** What the outside can observe, in program order. *)
Inductive Effect :=
| Appended (m : Message)
| Requested (r : Request)
| Settled (rid : nat).

Record State := mkState {
  messages : list Message;
  inputMessage : Js.str;
  isLoading : bool;
  uploadedDocuments : list Document;
  isUploading : bool;
  selectedDocuments : list Js.str;
  userId : Js.str;
  tasks : list Task;
  timers : list Z;
  trace : list Effect
}.

(** Requests issued so far, oldest first; a request's id is its position. *)
Fixpoint requests_of (t : list Effect) : list Request :=
  match t with
  | [] => []
  | Requested r :: t' => r :: requests_of t'
  | _ :: t' => requests_of t'
  end.

Definition requests (st : State) : list Request := requests_of (trace st).

Fixpoint settled_of (t : list Effect) : list nat :=
  match t with
  | [] => []
  | Settled rid :: t' => rid :: settled_of t'
  | _ :: t' => settled_of t'
  end.

(** Request [rid] has been issued and its response has not arrived. *)
Definition in_flight (st : State) (rid : nat) : Prop :=
  rid < length (requests st) /\ ~ In rid (settled_of (trace st)).

(** ** A state monad for the handlers *)

Definition M (A : Type) : Type := State -> A * State.

Definition ret {A} (a : A) : M A := fun st => (a, st).

Definition bind {A B} (m : M A) (k : A -> M B) : M B :=
  fun st => let (a, st') := m st in k a st'.

Notation "x <- m ;; k" := (bind m (fun x => k))
  (at level 61, m at next level, right associativity).
Notation "m ;; k" := (bind m (fun _ => k))
  (at level 61, right associativity).

Definition exec {A} (m : M A) (st : State) : State := snd (m st).

Definition get {A} (f : State -> A) : M A := fun st => (f st, st).

Definition emit (e : Effect) : M unit := fun st =>
  (tt, mkState (messages st) (inputMessage st) (isLoading st)
         (uploadedDocuments st) (isUploading st) (selectedDocuments st)
         (userId st) (tasks st) (timers st) (trace st ++ [e])).

(** The [useState] setters; each takes the updater function. *)
Definition setMessages (f : list Message -> list Message) : M unit := fun st =>
  (tt, mkState (f (messages st)) (inputMessage st) (isLoading st)
         (uploadedDocuments st) (isUploading st) (selectedDocuments st)
         (userId st) (tasks st) (timers st) (trace st)).

Definition setInputMessage (v : Js.str) : M unit := fun st =>
  (tt, mkState (messages st) v (isLoading st)
         (uploadedDocuments st) (isUploading st) (selectedDocuments st)
         (userId st) (tasks st) (timers st) (trace st)).

Definition setIsLoading (v : bool) : M unit := fun st =>
  (tt, mkState (messages st) (inputMessage st) v
         (uploadedDocuments st) (isUploading st) (selectedDocuments st)
         (userId st) (tasks st) (timers st) (trace st)).

Definition setUploadedDocuments (f : list Document -> list Document) : M unit :=
  fun st =>
  (tt, mkState (messages st) (inputMessage st) (isLoading st)
         (f (uploadedDocuments st)) (isUploading st) (selectedDocuments st)
         (userId st) (tasks st) (timers st) (trace st)).

Definition setIsUploading (v : bool) : M unit := fun st =>
  (tt, mkState (messages st) (inputMessage st) (isLoading st)
         (uploadedDocuments st) v (selectedDocuments st)
         (userId st) (tasks st) (timers st) (trace st)).

Definition setSelectedDocuments (f : list Js.str -> list Js.str) : M unit :=
  fun st =>
  (tt, mkState (messages st) (inputMessage st) (isLoading st)
         (uploadedDocuments st) (isUploading st) (f (selectedDocuments st))
         (userId st) (tasks st) (timers st) (trace st)).

Definition setTasks (f : list Task -> list Task) : M unit := fun st =>
  (tt, mkState (messages st) (inputMessage st) (isLoading st)
         (uploadedDocuments st) (isUploading st) (selectedDocuments st)
         (userId st) (f (tasks st)) (timers st) (trace st)).

Definition setTimers (f : list Z -> list Z) : M unit := fun st =>
  (tt, mkState (messages st) (inputMessage st) (isLoading st)
         (uploadedDocuments st) (isUploading st) (selectedDocuments st)
         (userId st) (tasks st) (f (timers st)) (trace st)).

(** [setMessages(prev => [...prev, m])], the only way the transcript is
    written. *)
Definition appendMessage (m : Message) : M unit :=
  setMessages (fun prev => prev ++ [m]) ;; emit (Appended m).

(** An axios call: the request goes out and gets the next id. *)
Definition axios (r : Request) : M nat :=
  rid <- get (fun st => length (requests st)) ;;
  emit (Requested r) ;;
  ret rid.

(** [await]: the rest of the handler waits as a task. *)
Definition suspend (t : Task) : M unit := setTasks (fun ts => t :: ts).

(** [setTimeout(loadUserDocuments, delay)] *)
Definition setTimeout_loadUserDocuments (delay : Z) : M unit :=
  setTimers (fun ts => ts ++ [delay]).

Fixpoint mapM {A B} (f : A -> M B) (l : list A) : M (list B) :=
  match l with
  | [] => ret []
  | x :: l' => y <- f x ;; ys <- mapM f l' ;; ret (y :: ys)
  end.

(** ** The handlers of ChatWithDocs *)

Definition systemMessage (now : Z) (text : Js.str) : Message :=
  mkMessage now system text None.

(** *** loadUserDocuments *)

Definition loadUserDocuments : M unit :=
  uid <- get userId ;;
  rid <- axios (GetDocuments uid) ;;
  suspend (AwaitList rid).

(** [setUploadedDocuments(response.data.documents || [])] *)
Definition loadUserDocuments_then (documents : option (list Document)) : M unit :=
  setUploadedDocuments
    (fun _ => match documents with Some l => l | None => [] end).

(** The [catch] branch only writes to the console. *)
Definition loadUserDocuments_catch (error : AxiosError) : M unit := ret tt.

(** *** onDrop *)

(** The [map] callback up to its [await]. *)
Definition upload_start (file : File) : M UploadPromise :=
  uid <- get userId ;;
  rid <- axios (PostUpload file uid) ;;
  ret (Pending file rid).

(** The record the callback returns; [response_filename] is
    [response.data.filename]. *)
Definition upload_record (file : File) (response_filename : option Js.str)
  : Document :=
  mkDocument response_filename None (Some (file_name file)) None
    (Some (file_size file)) (Some (file_type file))
    (Some (Js.lit "processing")) None.

Definition uploaded_text (acceptedFiles : list File) : Js.str :=
  [55357; 56516]%N ++ Js.lit " Uploaded "
  ++ Js.of_nat (length acceptedFiles) ++ Js.lit " file(s): "
  ++ Js.join (Js.lit ", ") (map file_name acceptedFiles)
  ++ Js.lit ". Processing in background...".

Definition upload_error_text (error : AxiosError) : Js.str :=
  [10060]%N ++ Js.lit " Error uploading files: " ++ error_text error.

(** After [await Promise.all(uploadPromises)] fulfilled, with [finally]. *)
Definition onDrop_then (acceptedFiles : list File) (newFiles : list Document)
    (now : Z) : M unit :=
  setUploadedDocuments (fun prev => prev ++ newFiles) ;;
  appendMessage (systemMessage now (uploaded_text acceptedFiles)) ;;
  setTimeout_loadUserDocuments 2000 ;;
  setIsUploading false.

(** The [catch] branch, with [finally]. *)
Definition onDrop_catch (error : AxiosError) (now : Z) : M unit :=
  appendMessage (systemMessage now (upload_error_text error)) ;;
  setIsUploading false.

(** [Promise.all]: fulfilled with the values, in input order, once every
    promise is fulfilled; [None] while one is pending. *)
Fixpoint promise_all (ps : list UploadPromise) : option (list Document) :=
  match ps with
  | [] => Some []
  | Resolved d :: ps' =>
      match promise_all ps' with
      | Some ds => Some (d :: ds)
      | None => None
      end
  | Pending _ _ :: _ => None
  end.

Definition onDrop (acceptedFiles : list File) (now : Z) : M unit :=
  setIsUploading true ;;
  uploadPromises <- mapM upload_start acceptedFiles ;;
  match promise_all uploadPromises with
  | Some newFiles => onDrop_then acceptedFiles newFiles now
  | None => suspend (AwaitUploads acceptedFiles uploadPromises)
  end.

(** *** sendMessage *)

Definition please_upload : Js.str :=
  [55357; 56516]%N
  ++ Js.lit " Please upload some documents first before asking questions.".

Definition please_select : Js.str :=
  [55357; 56523]%N
  ++ Js.lit " Please select one or more documents to search in before asking questions.".

Definition query_error_text (error : AxiosError) : Js.str :=
  [10060]%N ++ Js.lit " Error getting response: " ++ error_text error.

Definition sendMessage (now : Z) : M unit :=
  input <- get inputMessage ;;
  docs <- get uploadedDocuments ;;
  selected <- get selectedDocuments ;;
  if negb (Js.truthy (Js.trim input)) then ret tt
  else if length docs =? 0 then
    appendMessage (systemMessage now please_upload)
  else if length selected =? 0 then
    appendMessage (systemMessage now please_select)
  else
    let userMessage := mkMessage now user input None in
    appendMessage userMessage ;;
    setInputMessage [] ;;
    setIsLoading true ;;
    uid <- get userId ;;
    rid <- axios (PostQuery uid input selected 5) ;;
    suspend (AwaitQuery rid).

Definition aiMessage (body : QueryData) (now : Z) : Message :=
  mkMessage (now + 1) ai (answer body)
    (Some (match answer_sources body with Some l => l | None => [] end)).

Definition sendMessage_then (body : QueryData) (now : Z) : M unit :=
  appendMessage (aiMessage body now) ;;
  setIsLoading false.

Definition sendMessage_catch (error : AxiosError) (now : Z) : M unit :=
  appendMessage (systemMessage (now + 1) (query_error_text error)) ;;
  setIsLoading false.

Definition handleKeyPress (key : Js.str) (shiftKey : bool) (now : Z) : M unit :=
  if Js.eqb key (Js.lit "Enter") && negb shiftKey then sendMessage now
  else ret tt.

Definition handleInputChange (value : Js.str) : M unit :=
  setInputMessage value.

(** *** deleteDocument *)

Definition deleted_text : Js.str :=
  [55357; 56785; 65039]%N ++ Js.lit " All documents deleted successfully.".

Definition delete_error_text (error : AxiosError) : Js.str :=
  [10060]%N ++ Js.lit " Error deleting documents: " ++ error_text error.

Definition deleteDocument : M unit :=
  uid <- get userId ;;
  rid <- axios (DeleteDocuments uid) ;;
  suspend (AwaitDelete rid).

Definition deleteDocument_then (now : Z) : M unit :=
  setUploadedDocuments (fun _ => []) ;;
  setSelectedDocuments (fun _ => []) ;;
  appendMessage (systemMessage now deleted_text).

Definition deleteDocument_catch (error : AxiosError) (now : Z) : M unit :=
  appendMessage (systemMessage now (delete_error_text error)).

(** *** Selection *)

(** [prev.includes(docId)] *)
Definition includes (l : list Js.str) (docId : Js.str) : bool :=
  existsb (fun x => Js.eqb x docId) l.

Definition toggle (docId : Js.str) (prev : list Js.str) : list Js.str :=
  if includes prev docId
  then filter (fun x => negb (Js.eqb x docId)) prev
  else prev ++ [docId].

Definition toggleDocumentSelection (docId : Js.str) : M unit :=
  setSelectedDocuments (toggle docId).

(** [doc.doc_id || doc.id] *)
Definition docId_of (doc : Document) : option Js.str :=
  Js.or (doc_id doc) (id doc).

(** [.filter(Boolean)] on an array of optional strings. *)
Fixpoint filter_Boolean (l : list (option Js.str)) : list Js.str :=
  match l with
  | [] => []
  | Some s :: l' => if Js.truthy s then s :: filter_Boolean l' else filter_Boolean l'
  | None :: l' => filter_Boolean l'
  end.

Definition selectAllDocuments : M unit :=
  docs <- get uploadedDocuments ;;
  let allDocIds := filter_Boolean (map docId_of docs) in
  setSelectedDocuments (fun _ => allDocIds).

Definition deselectAllDocuments : M unit :=
  setSelectedDocuments (fun _ => []).

(** The [onClick] of a document card: [docId && toggleDocumentSelection(docId)]. *)
Definition cardClick (doc : Document) : M unit :=
  match docId_of doc with
  | Some docId => if Js.truthy docId then toggleDocumentSelection docId else ret tt
  | None => ret tt
  end.

(** ** What is rendered: the [disabled] attributes *)

Definition clearAllDisabled (st : State) : bool :=
  length (uploadedDocuments st) =? 0.

Definition selectionControlsShown (st : State) : bool :=
  0 <? length (uploadedDocuments st).

Definition selectAllDisabled (st : State) : bool :=
  length (selectedDocuments st) =? length (uploadedDocuments st).

Definition deselectAllDisabled (st : State) : bool :=
  length (selectedDocuments st) =? 0.

Definition textareaDisabled (st : State) : bool :=
  (length (uploadedDocuments st) =? 0) || isLoading st.

Definition sendDisabled (st : State) : bool :=
  negb (Js.truthy (Js.trim (inputMessage st)))
  || (length (uploadedDocuments st) =? 0) || isLoading st.

(** ** Events: user actions, timers and responses *)

Inductive Event :=
| Mounted
| InputChanged (value : Js.str)
| KeyPressed (key : Js.str) (shiftKey : bool) (now : Z)
| SendClicked (now : Z)
| FilesDropped (acceptedFiles : list File) (now : Z)
| ClearAllClicked
| CardClicked (i : nat)
| SelectAllClicked
| DeselectAllClicked
| TimerFired (i : nat)
| ListSettles (rid : nat) (o : Outcome (option (list Document)))
| UploadSettles (rid : nat) (o : Outcome (option Js.str)) (now : Z)
| QuerySettles (rid : nat) (o : Outcome QueryData) (now : Z)
| DeleteSettles (rid : nat) (o : Outcome unit) (now : Z).

(** The first task that satisfies [p], and the others. *)
Fixpoint take_task (p : Task -> bool) (ts : list Task)
  : option (Task * list Task) :=
  match ts with
  | [] => None
  | t :: ts' =>
      if p t then Some (t, ts')
      else match take_task p ts' with
           | Some (t', rest) => Some (t', t :: rest)
           | None => None
           end
  end.

Definition awaits_list (rid : nat) (t : Task) : bool :=
  match t with AwaitList r => r =? rid | _ => false end.

Definition awaits_query (rid : nat) (t : Task) : bool :=
  match t with AwaitQuery r => r =? rid | _ => false end.

Definition awaits_delete (rid : nat) (t : Task) : bool :=
  match t with AwaitDelete r => r =? rid | _ => false end.

Definition pending_on (rid : nat) (p : UploadPromise) : bool :=
  match p with Pending _ r => r =? rid | Resolved _ => false end.

Definition awaits_upload (rid : nat) (t : Task) : bool :=
  match t with AwaitUploads _ ps => existsb (pending_on rid) ps | _ => false end.

(** The callback of the file whose request is [rid] resumes and returns. *)
Definition settle_promise (rid : nat) (response_filename : option Js.str)
    (p : UploadPromise) : UploadPromise :=
  match p with
  | Pending file r =>
      if r =? rid then Resolved (upload_record file response_filename) else p
  | Resolved _ => p
  end.

Definition listSettles (rid : nat) (o : Outcome (option (list Document)))
  : M unit :=
  emit (Settled rid) ;;
  ts <- get tasks ;;
  match take_task (awaits_list rid) ts with
  | Some (_, rest) =>
      setTasks (fun _ => rest) ;;
      match o with
      | Fulfilled documents => loadUserDocuments_then documents
      | Rejected error => loadUserDocuments_catch error
      end
  | None => ret tt
  end.

(** A rejection rejects [Promise.all] at once; a fulfilment fulfils it only
    when it was the last one pending. *)
Definition uploadSettles (rid : nat) (o : Outcome (option Js.str)) (now : Z)
  : M unit :=
  emit (Settled rid) ;;
  ts <- get tasks ;;
  match take_task (awaits_upload rid) ts with
  | Some (AwaitUploads acceptedFiles ps, rest) =>
      match o with
      | Rejected error => setTasks (fun _ => rest) ;; onDrop_catch error now
      | Fulfilled response_filename =>
          let ps' := map (settle_promise rid response_filename) ps in
          match promise_all ps' with
          | Some newFiles =>
              setTasks (fun _ => rest) ;;
              onDrop_then acceptedFiles newFiles now
          | None => setTasks (fun _ => AwaitUploads acceptedFiles ps' :: rest)
          end
      end
  | _ => ret tt
  end.

Definition querySettles (rid : nat) (o : Outcome QueryData) (now : Z) : M unit :=
  emit (Settled rid) ;;
  ts <- get tasks ;;
  match take_task (awaits_query rid) ts with
  | Some (_, rest) =>
      setTasks (fun _ => rest) ;;
      match o with
      | Fulfilled body => sendMessage_then body now
      | Rejected error => sendMessage_catch error now
      end
  | None => ret tt
  end.

Definition deleteSettles (rid : nat) (o : Outcome unit) (now : Z) : M unit :=
  emit (Settled rid) ;;
  ts <- get tasks ;;
  match take_task (awaits_delete rid) ts with
  | Some (_, rest) =>
      setTasks (fun _ => rest) ;;
      match o with
      | Fulfilled _ => deleteDocument_then now
      | Rejected error => deleteDocument_catch error now
      end
  | None => ret tt
  end.

Fixpoint remove_nth {A} (i : nat) (l : list A) : list A :=
  match i, l with
  | _, [] => []
  | 0, _ :: l' => l'
  | S i', x :: l' => x :: remove_nth i' l'
  end.

Definition timerFired (i : nat) : M unit :=
  ts <- get timers ;;
  match nth_error ts i with
  | Some _ => setTimers (remove_nth i) ;; loadUserDocuments
  | None => ret tt
  end.

(** What an event runs, given what is rendered in the current state. *)
Definition dispatch (ev : Event) : M unit :=
  match ev with
  | Mounted => loadUserDocuments
  | InputChanged value =>
      off <- get textareaDisabled ;;
      if off then ret tt else handleInputChange value
  | KeyPressed key shiftKey now =>
      off <- get textareaDisabled ;;
      if off then ret tt else handleKeyPress key shiftKey now
  | SendClicked now =>
      off <- get sendDisabled ;;
      if off then ret tt else sendMessage now
  | FilesDropped acceptedFiles now => onDrop acceptedFiles now
  | ClearAllClicked =>
      off <- get clearAllDisabled ;;
      if off then ret tt else deleteDocument
  | CardClicked i =>
      docs <- get uploadedDocuments ;;
      match nth_error docs i with
      | Some doc => cardClick doc
      | None => ret tt
      end
  | SelectAllClicked =>
      shown <- get selectionControlsShown ;;
      off <- get selectAllDisabled ;;
      if shown && negb off then selectAllDocuments else ret tt
  | DeselectAllClicked =>
      shown <- get selectionControlsShown ;;
      off <- get deselectAllDisabled ;;
      if shown && negb off then deselectAllDocuments else ret tt
  | TimerFired i => timerFired i
  | ListSettles rid o => listSettles rid o
  | UploadSettles rid o now => uploadSettles rid o now
  | QuerySettles rid o now => querySettles rid o now
  | DeleteSettles rid o now => deleteSettles rid o now
  end.

Definition handle (ev : Event) (st : State) : State := exec (dispatch ev) st.

Definition run (evs : list Event) (st : State) : State :=
  fold_left (fun s ev => handle ev s) evs st.

(** The state at page load; [t0] is the [Date.now()] of [useState]. *)
Definition init (t0 : Z) : State :=
  mkState [] [] false [] false [] (Js.lit "user_" ++ Js.of_Z t0) [] [] [].

(** ** Properties of states *)

(** Every selected identifier is the identifier of a listed document. *)
Definition selection_listed (st : State) : Prop :=
  forall docId, In docId (selectedDocuments st) ->
    exists doc, In doc (uploadedDocuments st) /\ docId_of doc = Some docId.

(** Preconditions of ask-a-question. *)
Definition question_blank (st : State) : bool :=
  negb (Js.truthy (Js.trim (inputMessage st))).
Definition no_documents (st : State) : bool :=
  length (uploadedDocuments st) =? 0.
Definition none_selected (st : State) : bool :=
  length (selectedDocuments st) =? 0.

(** Transcript entries in the order they were appended. *)
Fixpoint appended_of (t : list Effect) : list Message :=
  match t with
  | [] => []
  | Appended m :: t' => m :: appended_of t'
  | _ :: t' => appended_of t'
  end.

(** The promises right after [acceptedFiles.map(...)]: request [base + i]
    for the file at position [i]. *)
Fixpoint pendings (base : nat) (files : list File) : list UploadPromise :=
  match files with
  | [] => []
  | f :: files' => Pending f base :: pendings (S base) files'
  end.

Definition add_trace (es : list Effect) (st : State) : State :=
  mkState (messages st) (inputMessage st) (isLoading st)
    (uploadedDocuments st) (isUploading st) (selectedDocuments st)
    (userId st) (tasks st) (timers st) (trace st ++ es).

Definition upload_requests (uid : Js.str) (files : list File) : list Effect :=
  map (fun f => Requested (PostUpload f uid)) files.

(** [selection_listed] as a test. *)
Definition has_docId (docId : Js.str) (doc : Document) : bool :=
  match docId_of doc with
  | Some d => Js.eqb d docId
  | None => false
  end.

Definition selection_listedb (st : State) : bool :=
  forallb (fun docId => existsb (has_docId docId) (uploadedDocuments st))
    (selectedDocuments st).

(** The event is a successful response to a listing request. *)
Definition refreshes (ev : Event) : bool :=
  match ev with
  | ListSettles _ (Fulfilled _) => true
  | _ => false
  end.

(** The response to request [rid] arrives with event [ev]. *)
Definition settles (rid : nat) (ev : Event) : bool :=
  match ev with
  | ListSettles r _ | UploadSettles r _ _ | QuerySettles r _ _
  | DeleteSettles r _ _ => r =? rid
  | _ => false
  end.

(** No event of [evs] is the response to request [rid]. *)
Definition unanswered (rid : nat) (evs : list Event) : bool :=
  forallb (fun ev => negb (settles rid ev)) evs.

(** The request a single-request task waits for. *)
Definition simple_task (t : Task) : option nat :=
  match t with
  | AwaitList r | AwaitQuery r | AwaitDelete r => Some r
  | AwaitUploads _ _ => None
  end.

(** The promises of a batch once the requests of the positions in [done]
    have been fulfilled, the one of position [i] with [resp i] as
    [response.data.filename]. *)
Definition promises_after (base : nat) (files : list File)
    (resp : nat -> option Js.str) (done : list nat) : list UploadPromise :=
  map (fun p =>
         if existsb (Nat.eqb (fst p)) done
         then Resolved (upload_record (snd p) (resp (fst p)))
         else Pending (snd p) (base + fst p))
    (combine (seq 0 (length files)) files).

(** The records [newFiles] of a batch whose requests were all fulfilled. *)
Definition optimistic_records (files : list File)
    (resp : nat -> option Js.str) : list Document :=
  map (fun p => upload_record (snd p) (resp (fst p)))
    (combine (seq 0 (length files)) files).

(** Every request a parked batch waits for has been issued. *)
Definition uploads_bounded (st : State) : Prop :=
  forall files ps f rid,
    In (AwaitUploads files ps) (tasks st) -> In (Pending f rid) ps ->
    rid < length (requests st).

(** The request of position [i] of a batch is fulfilled at time [clock i]. *)
Definition fulfilment (base : nat) (resp : nat -> option Js.str)
    (clock : nat -> Z) (i : nat) : Event :=
  UploadSettles (base + i) (Fulfilled (resp i)) (clock i).

(** Nothing the user can see differs between [s] and [s'], and no request
    went out in between. *)
Definition same_client (s s' : State) : Prop :=
  messages s' = messages s
  /\ uploadedDocuments s' = uploadedDocuments s
  /\ selectedDocuments s' = selectedDocuments s
  /\ timers s' = timers s
  /\ isUploading s' = isUploading s
  /\ userId s' = userId s
  /\ requests s' = requests s.

(** ** Relations between a state and a later one *)

(** Every step of [m] takes a state to one related to it by [R]. *)
Definition respects (R : State -> State -> Prop) {A} (m : M A) : Prop :=
  forall st, R st (snd (m st)).

(** The transcript of [st'] is the one of [st] with entries added at the
    end, and these are the entries appended in between. *)
Definition grows (st st' : State) : Prop :=
  exists new,
    messages st' = messages st ++ new
    /\ appended_of (trace st') = appended_of (trace st) ++ new.

(** A parked task is still parked. *)
Definition keeps (t : Task) (st st' : State) : Prop :=
  In t (tasks st) -> In t (tasks st').

(** The selection stays within the list. *)
Definition stays_listed (st st' : State) : Prop :=
  selection_listed st -> selection_listed st'.

(** The batches parked in [st] stay within the requests issued. *)
Definition stays_bounded (st st' : State) : Prop :=
  uploads_bounded st -> uploads_bounded st'.

(** ** Sample inputs *)

Definition file_a : File :=
  mkFile (Js.lit "a.pdf") 10000 (Js.lit "application/pdf").

Definition file_b : File :=
  mkFile (Js.lit "b.txt") 500 (Js.lit "text/plain").

Definition network_error : AxiosError :=
  mkAxiosError None (Js.lit "Network Error").

(** One optimistic document, selected, and a question of three spaces. *)
Definition blank_question_state : State :=
  mkState [] (Js.lit "   ") false
    [upload_record file_a (Some (Js.lit "a.pdf"))] false [Js.lit "a.pdf"]
    (Js.lit "user_0") [] [] [].

(** A question typed while the document list is empty. *)
Definition no_documents_state : State :=
  mkState [] (Js.lit "What is the summary?") false [] false []
    (Js.lit "user_0") [] [] [].

(** A question ready to be sent: one optimistic document, selected. *)
Definition ready_state : State :=
  mkState [] (Js.lit "What is the summary?") false
    [upload_record file_a (Some (Js.lit "a.pdf"))] false [Js.lit "a.pdf"]
    (Js.lit "user_0") [] [] [].

Definition sample_source : Source :=
  mkSource (Js.lit "a.pdf") (Js.lit "...") (Some 0x1.bd70a3d70a3d7p-1%float).

Definition sample_answer : QueryData :=
  mkQueryData (Js.lit "It is a report.") (Some [sample_source]).

Definition backend_error : AxiosError :=
  mkAxiosError
    (Some (mkErrorResponse (Some (mkErrorData (Some (Js.lit "No documents found"))))))
    (Js.lit "Request failed with status code 404").

(** The backend's records of the two sample files. *)
Definition listed_a : Document :=
  mkDocument None (Some (Js.lit "d1")) None (Some (Js.lit "a.pdf")) None None
    None (Some 12%Z).

Definition listed_b : Document :=
  mkDocument None (Some (Js.lit "d2")) None (Some (Js.lit "b.txt")) None None
    None (Some 3%Z).

(** Upload [a.pdf], select its optimistic record, then let the scheduled
    refresh bring the backend's record. *)
Definition select_then_refresh : list Event :=
  [ Mounted;
    ListSettles 0 (Fulfilled (Some []));
    FilesDropped [file_a] 1000;
    UploadSettles 1 (Fulfilled (Some (Js.lit "a.pdf"))) 1500;
    CardClicked 0;
    TimerFired 0 ].

(** The upload responses of the two sample files, and when they arrive. *)
Definition sample_resp (i : nat) : option Js.str :=
  if i =? 0 then Some (Js.lit "a.pdf") else Some (Js.lit "b.txt").

Definition sample_clock (i : nat) : Z := 1500 + Z.of_nat i.

(** ** More of the component *)

(** The document has an identifier the component can use:
    [doc.doc_id || doc.id] is truthy. *)
Definition has_id (doc : Document) : bool :=
  match docId_of doc with
  | Some docId => Js.truthy docId
  | None => false
  end.

(** [docId ? selectedDocuments.includes(docId) : false], the highlight of a
    document card. *)
Definition isSelected (st : State) (doc : Document) : bool :=
  match docId_of doc with
  | Some docId =>
      if Js.truthy docId then includes (selectedDocuments st) docId else false
  | None => false
  end.

(** Two cards carry the same usable identifier. *)
Definition same_card (doc doc' : Document) : bool :=
  match docId_of doc, docId_of doc' with
  | Some d, Some d' => Js.truthy d && Js.eqb d' d
  | _, _ => false
  end.

(** The session a request is made for. *)
Definition request_user (r : Request) : Js.str :=
  match r with
  | GetDocuments u | DeleteDocuments u => u
  | PostUpload _ u => u
  | PostQuery u _ _ _ => u
  end.

(** What every query the component can send looks like: a question that is
    not blank, at least one identifier, none of them empty, five results. *)
Definition query_ok (r : Request) : Prop :=
  match r with
  | PostQuery _ q ids k =>
      Js.truthy (Js.trim q) = true /\ ids <> []
      /\ Forall (fun d => Js.truthy d = true) ids /\ k = 5%Z
  | _ => True
  end.

(** The requests the parked [sendMessage] calls wait for. *)
Fixpoint query_rids (ts : list Task) : list nat :=
  match ts with
  | [] => []
  | AwaitQuery r :: ts' => r :: query_rids ts'
  | _ :: ts' => query_rids ts'
  end.

(** The entry is not the "please upload" system entry. *)
Definition no_upload_prompt (m : Message) : Prop :=
  ~ (msg_type m = system /\ content m = please_upload).

(** The transcript grew, and not by a "please upload" entry. *)
Definition grows_unprompted (st st' : State) : Prop :=
  exists new,
    messages st' = messages st ++ new /\ Forall no_upload_prompt new.

(** No selected identifier is the empty string. *)
Definition selection_usable (st : State) : Prop :=
  Forall (fun d => Js.truthy d = true) (selectedDocuments st).

(** From a usable selection: the selection stays usable, the session
    identifier stays, and the requests issued in between are made for this
    session, the queries among them well formed. *)
Definition careful (st st' : State) : Prop :=
  selection_usable st ->
  selection_usable st'
  /\ userId st' = userId st
  /\ exists new,
       requests st' = requests st ++ new
       /\ Forall (fun r => request_user r = userId st /\ query_ok r) new.

(** A question is typed and sent after an upload. *)
Definition upload_select_ask : list Event :=
  [ FilesDropped [file_a] 1000;
    UploadSettles 0 (Fulfilled (Some (Js.lit "a.pdf"))) 1500;
    CardClicked 0;
    InputChanged (Js.lit " What is the summary? ");
    KeyPressed (Js.lit "Enter") false 2000 ].

(** While a question is being answered exactly one [sendMessage] is parked
    and the input box is empty; otherwise none is parked. *)
Definition one_question (st : State) : Prop :=
  if isLoading st
  then inputMessage st = [] /\ length (query_rids (tasks st)) = 1
  else query_rids (tasks st) = [].

Definition stays_single (st st' : State) : Prop :=
  one_question st -> one_question st'.

(** The event can change the document list: a successful response to a
    listing, an upload or a delete-all. *)
Definition changes_list (ev : Event) : bool :=
  match ev with
  | ListSettles _ (Fulfilled _) => true
  | UploadSettles _ (Fulfilled _) _ => true
  | DeleteSettles _ (Fulfilled _) _ => true
  | _ => false
  end.

(** The event can change the selection: a click on a card, on Select All
    or on Clear, or a successful response to a delete-all. *)
Definition changes_selection (ev : Event) : bool :=
  match ev with
  | CardClicked _ | SelectAllClicked | DeselectAllClicked => true
  | DeleteSettles _ (Fulfilled _) _ => true
  | _ => false
  end.

Definition same_list (st st' : State) : Prop :=
  uploadedDocuments st' = uploadedDocuments st.

Definition same_selection (st st' : State) : Prop :=
  selectedDocuments st' = selectedDocuments st.

(** A listing and a delete-all are both in flight. *)
Definition refresh_and_delete_state : State :=
  exec deleteDocument (exec loadUserDocuments ready_state).

(** * Verification *)

Arguments Js.trim : simpl never.
Arguments Js.lit : simpl never.
Arguments Js.of_nat : simpl never.
Arguments Js.join : simpl never.
Arguments error_text : simpl never.
Arguments please_upload : simpl never.
Arguments please_select : simpl never.
Arguments deleted_text : simpl never.
Arguments uploaded_text : simpl never.
Arguments upload_error_text : simpl never.
Arguments query_error_text : simpl never.
Arguments delete_error_text : simpl never.

(** ** Strings and lists *)

Lemma Js_eqb_eq (a b : Js.str) : Js.eqb a b = true <-> a = b.
Proof.
  revert b; induction a as [|x a IH]; intros [|y b]; simpl;
    try (split; congruence).
  rewrite andb_true_iff, N.eqb_eq, IH. split.
  - intros [-> ->]; reflexivity.
  - intros H; injection H; auto.
Qed.

Lemma Js_eqb_refl (a : Js.str) : Js.eqb a a = true.
Proof. apply Js_eqb_eq; reflexivity. Qed.

Lemma Js_eqb_neq (a b : Js.str) : Js.eqb a b = false <-> a <> b.
Proof.
  rewrite <- Js_eqb_eq. destruct (Js.eqb a b); split; congruence.
Qed.

Lemma includes_In (l : list Js.str) (d : Js.str) :
  includes l d = true <-> In d l.
Proof.
  unfold includes. rewrite existsb_exists. split.
  - intros [x [Hx He]]. apply Js_eqb_eq in He. subst; assumption.
  - intros H. exists d. split; [assumption | apply Js_eqb_refl].
Qed.

Lemma includes_not_In (l : list Js.str) (d : Js.str) :
  includes l d = false <-> ~ In d l.
Proof.
  rewrite <- includes_In. destruct (includes l d); split; congruence.
Qed.

Lemma In_toggle (d : Js.str) (l : list Js.str) (x : Js.str) :
  In x (toggle d l) <-> (x = d /\ ~ In d l) \/ (x <> d /\ In x l).
Proof.
  unfold toggle. destruct (includes l d) eqn:Hi.
  - apply includes_In in Hi. rewrite filter_In, negb_true_iff, Js_eqb_neq.
    split.
    + intros [Hx Hn]. right. split; assumption.
    + intros [[-> Hn] | [Hn Hx]]; [contradiction | split; assumption].
  - apply includes_not_In in Hi. rewrite in_app_iff. simpl. split.
    + intros [Hx | [<- | []]].
      * right. split; [intros ->; contradiction | assumption].
      * left. split; [reflexivity | assumption].
    + intros [[-> _] | [_ Hx]]; [right; left; reflexivity | left; assumption].
Qed.

Lemma requests_of_app (t u : list Effect) :
  requests_of (t ++ u) = requests_of t ++ requests_of u.
Proof.
  induction t as [|[m|r|k] t IH]; simpl; rewrite ?IH; reflexivity.
Qed.

Lemma appended_of_app (t u : list Effect) :
  appended_of (t ++ u) = appended_of t ++ appended_of u.
Proof.
  induction t as [|[m|r|k] t IH]; simpl; rewrite ?IH; reflexivity.
Qed.

(** ** The requests of one batch *)

Lemma requests_of_upload_requests (uid : Js.str) (files : list File) :
  requests_of (upload_requests uid files)
  = map (fun f => PostUpload f uid) files.
Proof. induction files as [|f l IH]; simpl; rewrite ?IH; reflexivity. Qed.

Lemma appended_of_upload_requests (uid : Js.str) (files : list File) :
  appended_of (upload_requests uid files) = [].
Proof. induction files as [|f l IH]; simpl; rewrite ?IH; reflexivity. Qed.

Lemma add_trace_add_trace (es es' : list Effect) (st : State) :
  add_trace es' (add_trace es st) = add_trace (es ++ es') st.
Proof. unfold add_trace; simpl. rewrite app_assoc. reflexivity. Qed.

Lemma mapM_upload_start (files : list File) (st : State) :
  mapM upload_start files st
  = (pendings (length (requests st)) files,
     add_trace (upload_requests (userId st) files) st).
Proof.
  revert st; induction files as [|f files IH]; intros st.
  - destruct st; unfold add_trace; simpl. rewrite app_nil_r. reflexivity.
  - cbn [mapM]. unfold bind at 1. unfold upload_start at 1.
    unfold bind, get, axios, emit, ret; cbn -[mapM].
    fold (add_trace [Requested (PostUpload f (userId st))] st).
    rewrite (IH (add_trace [Requested (PostUpload f (userId st))] st)).
    rewrite add_trace_add_trace. unfold requests; cbn.
    rewrite requests_of_app, length_app; cbn.
    replace (length (requests_of (trace st)) + 1) with
      (S (length (requests_of (trace st)))) by lia.
    reflexivity.
Qed.

(** ** A drop, and runs of events *)

Lemma onDrop_unfold (acceptedFiles : list File) (now : Z) (st : State) :
  exec (onDrop acceptedFiles now) st
  = let st1 := add_trace (upload_requests (userId st) acceptedFiles)
                 (exec (setIsUploading true) st) in
    match promise_all (pendings (length (requests st)) acceptedFiles) with
    | Some newFiles => exec (onDrop_then acceptedFiles newFiles now) st1
    | None =>
        exec (suspend (AwaitUploads acceptedFiles
                (pendings (length (requests st)) acceptedFiles))) st1
    end.
Proof.
  unfold onDrop, exec. unfold bind at 1. unfold setIsUploading at 1.
  unfold bind at 1. rewrite mapM_upload_start. cbn.
  destruct (promise_all _); reflexivity.
Qed.

Lemma run_app (evs evs' : list Event) (st : State) :
  run (evs ++ evs') st = run evs' (run evs st).
Proof. unfold run. apply fold_left_app. Qed.

Lemma run_cons (ev : Event) (evs : list Event) (st : State) :
  run (ev :: evs) st = run evs (handle ev st).
Proof. reflexivity. Qed.

(** ** Relations that every step of a handler respects *)

Section Respects.
Context (R : State -> State -> Prop) {HR : PreOrder R}.

Lemma respects_ret {A} (a : A) : respects R (ret a).
Proof. intros st. reflexivity. Qed.

Lemma respects_get {A} (f : State -> A) : respects R (get f).
Proof. intros st. reflexivity. Qed.

Lemma respects_bind {A B} (m : M A) (k : A -> M B) :
  respects R m -> (forall a, respects R (k a)) -> respects R (bind m k).
Proof.
  intros Hm Hk st. unfold bind.
  specialize (Hm st). destruct (m st) as [a st1]. simpl in Hm.
  transitivity st1; [assumption | apply Hk].
Qed.

Lemma respects_mapM {A B} (f : A -> M B) (l : list A) :
  (forall x, respects R (f x)) -> respects R (mapM f l).
Proof.
  intros Hf. induction l as [|x l IH]; simpl.
  - apply respects_ret.
  - apply respects_bind; [apply Hf | intros y].
    apply respects_bind; [apply IH | intros ys]. apply respects_ret.
Qed.

Lemma respects_run (evs : list Event) :
  (forall ev, respects R (dispatch ev)) -> forall st, R st (run evs st).
Proof.
  intros H. induction evs as [|ev evs IH]; intros st.
  - reflexivity.
  - rewrite run_cons. transitivity (handle ev st); [apply H | apply IH].
Qed.
End Respects.

(** Walks a handler along its binds and branches; [prim] closes the
    primitives. *)
Ltac head_of t :=
  lazymatch t with
  | ?f _ => head_of f
  | _ => t
  end.

(** Unfolds the handler at the head, and nothing below it. *)
Ltac unfold_handler :=
  lazymatch goal with
  | |- respects _ ?m =>
      let h := head_of m in
      lazymatch h with
      | setMessages => fail
      | setInputMessage => fail
      | setIsLoading => fail
      | setUploadedDocuments => fail
      | setIsUploading => fail
      | setSelectedDocuments => fail
      | setTasks => fail
      | setTimers => fail
      | emit => fail
      | appendMessage => fail
      | _ => progress unfold h
      end
  end.

Ltac respects_walk prim :=
  repeat first
    [ solve [prim]
    | match goal with
      | |- respects _ (ret _) => apply respects_ret; exact _
      | |- respects _ (get _) => apply respects_get; exact _
      | |- respects _ (bind _ _) =>
          apply respects_bind; [ exact _ | | intros ? ]
      | |- respects _ (mapM _ _) =>
          apply respects_mapM; [ exact _ | intros ? ]
      | |- respects _ (match ?x with _ => _ end) => destruct x
      end
    | unfold_handler ].

(** *** The transcript only grows *)

#[local] Instance grows_preorder : PreOrder grows.
Proof.
  split.
  - intros st. exists []. rewrite !app_nil_r. split; reflexivity.
  - intros a b c [n1 [H1 H1']] [n2 [H2 H2']]. exists (n1 ++ n2).
    rewrite H2, H2', H1, H1', <- !app_assoc. split; reflexivity.
Qed.

Lemma grows_appendMessage (m : Message) : respects grows (appendMessage m).
Proof.
  intros st. exists [m]. cbn. rewrite appended_of_app. split; reflexivity.
Qed.

Lemma grows_emit_Requested (r : Request) : respects grows (emit (Requested r)).
Proof.
  intros st. exists []. cbn. rewrite appended_of_app, !app_nil_r.
  split; reflexivity.
Qed.

Lemma grows_emit_Settled (rid : nat) : respects grows (emit (Settled rid)).
Proof.
  intros st. exists []. cbn. rewrite appended_of_app, !app_nil_r.
  split; reflexivity.
Qed.

Lemma grows_same {A} (m : M A) :
  (forall st, messages (snd (m st)) = messages st
              /\ trace (snd (m st)) = trace st) ->
  respects grows m.
Proof.
  intros H st. destruct (H st) as [Hm Ht]. exists [].
  rewrite Hm, Ht, !app_nil_r. split; reflexivity.
Qed.

Ltac frame_prim lem :=
  match goal with
  | |- respects _ (setMessages _) => fail 1
  | |- respects _ (setInputMessage _) => apply lem
  | |- respects _ (setIsLoading _) => apply lem
  | |- respects _ (setUploadedDocuments _) => apply lem
  | |- respects _ (setIsUploading _) => apply lem
  | |- respects _ (setSelectedDocuments _) => apply lem
  | |- respects _ (setTasks _) => apply lem
  | |- respects _ (setTimers _) => apply lem
  end.

Ltac grows_prim :=
  match goal with
  | |- respects _ (appendMessage _) => apply grows_appendMessage
  | |- respects _ (emit (Requested _)) => apply grows_emit_Requested
  | |- respects _ (emit (Settled _)) => apply grows_emit_Settled
  | _ => frame_prim grows_same; intros ?; split; reflexivity
  end.

Lemma grows_dispatch (ev : Event) : respects grows (dispatch ev).
Proof. destruct ev; respects_walk ltac:(idtac; grows_prim). Qed.

Lemma run_messages (evs : list Event) (st : State) : grows st (run evs st).
Proof. apply respects_run; [exact _ | apply grows_dispatch]. Qed.

(** ** Suspended tasks *)

Lemma take_task_found (p : Task -> bool) (ts : list Task) (t : Task) :
  In t ts -> p t = true ->
  exists t' rest, take_task p ts = Some (t', rest) /\ p t' = true.
Proof.
  induction ts as [|a ts IH]; simpl; [intros [] |].
  intros Hin Hp. destruct (p a) eqn:Ha.
  - exists a, ts. split; [reflexivity | assumption].
  - destruct Hin as [-> | Hin]; [congruence |].
    destruct (IH Hin Hp) as [t' [rest [-> Ht']]].
    exists t', (a :: rest). split; [reflexivity | assumption].
Qed.

Lemma take_task_keeps (p : Task -> bool) (ts : list Task) (t : Task)
    (rest : list Task) (x : Task) :
  take_task p ts = Some (t, rest) -> In x ts -> p x = false -> In x rest.
Proof.
  revert rest; induction ts as [|a ts IH]; simpl; intros rest; [discriminate |].
  destruct (p a) eqn:Ha.
  - intros H [Heq | Hin] Hx; [subst; congruence |].
    injection H as _ <-; assumption.
  - destruct (take_task p ts) as [[t' r']|]; [|discriminate].
    intros H [Heq | Hin] Hx; injection H as <- <-.
    + left; assumption.
    + right. apply (IH r'); auto.
Qed.

Lemma take_task_none (p : Task -> bool) (ts : list Task) :
  (forall t, In t ts -> p t = false) -> take_task p ts = None.
Proof.
  induction ts as [|a ts IH]; simpl; intros H; [reflexivity |].
  rewrite (H a) by (left; reflexivity).
  rewrite IH; [reflexivity | intros t Ht; apply H; right; assumption].
Qed.

(** *** A parked task stays until its response arrives *)

#[local] Instance keeps_preorder (t : Task) : PreOrder (keeps t).
Proof. split; unfold keeps; [intros st | intros a b c]; auto. Qed.

Lemma keeps_same {A} (t : Task) (m : M A) :
  (forall st, tasks (snd (m st)) = tasks st) -> respects (keeps t) m.
Proof. intros H st Hin. rewrite H. exact Hin. Qed.

Lemma keeps_cons (t x : Task) :
  respects (keeps t) (setTasks (fun ts => x :: ts)).
Proof. intros st Hin. cbn. right. exact Hin. Qed.

Ltac keeps_prim :=
  match goal with
  | |- respects _ (setTasks (fun ts => _ :: ts)) => apply keeps_cons
  | |- respects _ (setTasks _) => fail 1
  | |- respects _ (appendMessage _) => apply keeps_same; intros ?; reflexivity
  | |- respects _ (emit _) => apply keeps_same; intros ?; reflexivity
  | _ => frame_prim keeps_same; intros ?; reflexivity
  end.

Ltac settle_keeps :=
  let Heq := fresh "Heq" in
  let u := fresh "u" in
  let rest := fresh "rest" in
  let Hrest := fresh "Hrest" in
  intros st Hin; cbn;
  match goal with
  | |- context [take_task ?p ?ts] =>
      destruct (take_task p ts) as [[u rest]|] eqn:Heq
  end;
  [ assert (Hrest : In _ rest)
      by (eapply take_task_keeps; [exact Heq | exact Hin | assumption]);
    repeat match goal with
           | |- context [match ?x with _ => _ end] => destruct x; cbn
           end;
    auto
  | cbn; exact Hin ].

Lemma keeps_dispatch (t : Task) (rid : nat) (ev : Event) :
  simple_task t = Some rid -> settles rid ev = false ->
  respects (keeps t) (dispatch ev).
Proof.
  intros Ht Hev.
  assert (Hl : forall r, settles rid ev = (r =? rid) -> awaits_list r t = false).
  { intros r Hr. rewrite Hev in Hr.
    destruct t; cbn in *; try reflexivity.
    injection Ht as ->. rewrite Nat.eqb_sym. auto. }
  assert (Hq : forall r, settles rid ev = (r =? rid) -> awaits_query r t = false).
  { intros r Hr. rewrite Hev in Hr.
    destruct t; cbn in *; try reflexivity.
    injection Ht as ->. rewrite Nat.eqb_sym. auto. }
  assert (Hd : forall r, settles rid ev = (r =? rid) -> awaits_delete r t = false).
  { intros r Hr. rewrite Hev in Hr.
    destruct t; cbn in *; try reflexivity.
    injection Ht as ->. rewrite Nat.eqb_sym. auto. }
  assert (Hu : forall r, awaits_upload r t = false).
  { intros r. destruct t; cbn in *; try reflexivity. discriminate. }
  destruct ev; try solve [respects_walk ltac:(idtac; keeps_prim)].
  - specialize (Hl rid0 eq_refl).
    unfold dispatch, listSettles, bind, get, emit. settle_keeps.
  - specialize (Hu rid0).
    unfold dispatch, uploadSettles, bind, get, emit. settle_keeps.
  - specialize (Hq rid0 eq_refl).
    unfold dispatch, querySettles, bind, get, emit. settle_keeps.
  - specialize (Hd rid0 eq_refl).
    unfold dispatch, deleteSettles, bind, get, emit. settle_keeps.
Qed.

Lemma task_kept (t : Task) (rid : nat) (evs : list Event) (st : State) :
  simple_task t = Some rid -> unanswered rid evs = true ->
  In t (tasks st) -> In t (tasks (run evs st)).
Proof.
  intros Ht. revert st. induction evs as [|ev evs IH]; intros st Hevs Hin.
  - exact Hin.
  - cbn in Hevs. apply andb_true_iff in Hevs. destruct Hevs as [Hev Hevs].
    apply negb_true_iff in Hev. rewrite run_cons. apply IH; [exact Hevs |].
    apply (keeps_dispatch t rid ev Ht Hev). exact Hin.
Qed.

(** *** What a response does once its task is found *)

Ltac settle_found H p :=
  let t' := fresh "t" in
  let rest := fresh "rest" in
  let Heq := fresh "Heq" in
  destruct (take_task_found p _ _ H (Nat.eqb_refl _)) as [t' [rest [Heq _]]];
  unfold handle, exec, dispatch, listSettles, querySettles, deleteSettles,
    bind, get, emit; cbn;
  rewrite Heq; cbn.

Lemma querySettles_messages (rid : nat) (o : Outcome QueryData) (now : Z)
    (st : State) :
  In (AwaitQuery rid) (tasks st) ->
  messages (handle (QuerySettles rid o now) st)
  = messages st ++
      [match o with
       | Fulfilled body => aiMessage body now
       | Rejected e => systemMessage (now + 1) (query_error_text e)
       end].
Proof.
  intros H. settle_found H (awaits_query rid). destruct o; reflexivity.
Qed.

Lemma deleteSettles_effect (rid : nat) (o : Outcome unit) (now : Z)
    (st : State) :
  In (AwaitDelete rid) (tasks st) ->
  let st' := handle (DeleteSettles rid o now) st in
  match o with
  | Fulfilled _ =>
      uploadedDocuments st' = [] /\ selectedDocuments st' = []
      /\ messages st' = messages st ++ [systemMessage now deleted_text]
  | Rejected e =>
      uploadedDocuments st' = uploadedDocuments st
      /\ selectedDocuments st' = selectedDocuments st
      /\ messages st' = messages st ++ [systemMessage now (delete_error_text e)]
  end.
Proof.
  intros H. settle_found H (awaits_delete rid).
  destruct o; repeat split; reflexivity.
Qed.

Lemma listSettles_effect (rid : nat) (o : Outcome (option (list Document)))
    (st : State) :
  In (AwaitList rid) (tasks st) ->
  let st' := handle (ListSettles rid o) st in
  uploadedDocuments st'
  = match o with
    | Fulfilled (Some l) => l
    | Fulfilled None => []
    | Rejected _ => uploadedDocuments st
    end
  /\ messages st' = messages st
  /\ selectedDocuments st' = selectedDocuments st
  /\ inputMessage st' = inputMessage st.
Proof.
  intros H. settle_found H (awaits_list rid).
  destruct o as [[l|]|e]; repeat split; reflexivity.
Qed.

Lemma sendMessage_passes (now : Z) (st : State) :
  question_blank st = false -> no_documents st = false ->
  none_selected st = false ->
  exec (sendMessage now) st
  = mkState (messages st ++ [mkMessage now user (inputMessage st) None])
      [] true (uploadedDocuments st) (isUploading st) (selectedDocuments st)
      (userId st) (AwaitQuery (length (requests st)) :: tasks st) (timers st)
      (trace st ++
         [Appended (mkMessage now user (inputMessage st) None);
          Requested (PostQuery (userId st) (inputMessage st)
                       (selectedDocuments st) 5)]).
Proof.
  destruct st as [msgs input loading docs uploading sel uid ts tm tr].
  unfold question_blank, no_documents, none_selected; cbn.
  intros Hq Hd Hs.
  unfold sendMessage, exec, bind, get; cbn. rewrite Hq, Hd, Hs. cbn.
  unfold requests; cbn. rewrite requests_of_app; cbn.
  rewrite app_nil_r, <- app_assoc. reflexivity.
Qed.

Lemma error_text_cases (e : AxiosError) :
  error_text e
  = match response e with
    | Some r =>
        match data r with
        | Some d =>
            match detail d with
            | Some s => if Js.truthy s then s else message e
            | None => message e
            end
        | None => message e
        end
    | None => message e
    end.
Proof.
  unfold error_text.
  destruct (response e) as [[[[[[|c s]|]]|]]|]; reflexivity.
Qed.

(** ** Asking a question: the guards *)

(** C1 (as the code has it): when a precondition of ask-a-question fails,
    [sendMessage] issues no request and parks no task.  A blank question
    returns silently, with no transcript entry; an empty document list
    appends the one "please upload" system entry; documents with an empty
    selection append the one "please select" system entry; the two texts
    differ. *)
Theorem C1_precondition_failures (now : Z) (st : State)
    (Hfail : question_blank st || no_documents st || none_selected st = true) :
  let st' := exec (sendMessage now) st in
  requests st' = requests st
  /\ tasks st' = tasks st
  /\ messages st' = messages st ++
       (if question_blank st then []
        else if no_documents st then [systemMessage now please_upload]
        else [systemMessage now please_select])
  /\ please_upload <> please_select.
Proof.
  destruct st as [msgs input loading docs uploading sel uid ts tm tr].
  unfold question_blank, no_documents, none_selected in *; cbn in Hfail.
  unfold sendMessage, exec, requests, bind, get; cbn.
  assert (Hne : please_upload <> please_select) by discriminate.
  destruct (Js.truthy (Js.trim input)); cbn in *.
  - destruct (length docs =? 0); cbn in *.
    + rewrite requests_of_app, app_nil_r. auto.
    + rewrite Hfail. cbn. rewrite requests_of_app, app_nil_r. auto.
  - rewrite app_nil_r. auto.
Qed.

Lemma C1_precondition_failures_witness :
  let st' := exec (sendMessage 7) no_documents_state in
  requests st' = requests no_documents_state
  /\ tasks st' = tasks no_documents_state
  /\ messages st' = messages no_documents_state ++
       (if question_blank no_documents_state then []
        else if no_documents no_documents_state
             then [systemMessage 7 please_upload]
             else [systemMessage 7 please_select])
  /\ please_upload <> please_select.
Proof.
  apply (C1_precondition_failures 7 no_documents_state). reflexivity.
Defined.

(** C1 as stated fails for the first precondition: with a document listed
    and selected and a question of three spaces, [sendMessage] appends no
    transcript entry at all. *)
Lemma C1_blank_question_is_silent :
  question_blank blank_question_state = true
  /\ no_documents blank_question_state = false
  /\ none_selected blank_question_state = false
  /\ messages (exec (sendMessage 7) blank_question_state)
     = messages blank_question_state
  /\ ~ (exists m, messages (exec (sendMessage 7) blank_question_state)
                  = messages blank_question_state ++ [m]).
Proof.
  repeat split; try reflexivity.
  intros [m H]. vm_compute in H. discriminate.
Qed.

(** ** The transcript *)

(** C9: every operation keeps the transcript and only adds at its end; over
    any sequence of operations the old entries stay as they were, and the
    entries after them are the appended ones in the order of their
    insertion. *)
Theorem C9_transcript_append_only :
  (forall ev st, exists new, messages (handle ev st) = messages st ++ new)
  /\ (forall evs st, exists new,
        messages (run evs st) = messages st ++ new
        /\ appended_of (trace (run evs st)) = appended_of (trace st) ++ new)
  /\ (forall evs t0,
        messages (run evs (init t0)) = appended_of (trace (run evs (init t0)))).
Proof.
  split; [| split].
  - intros ev st. destruct (grows_dispatch ev st) as [new [H _]].
    exists new. exact H.
  - apply run_messages.
  - intros evs t0. destruct (run_messages evs (init t0)) as [new [H H']].
    rewrite H, H'. reflexivity.
Qed.

(** ** Selection toggling *)

(** C10: one toggle of [docId] puts it in the selection exactly when it was
    absent, removes every occurrence when it was present, and keeps the
    membership of every other identifier; two toggles give back the same
    set of identifiers. *)
Theorem C10_toggle_involution (docId x : Js.str) (st : State) :
  let once := exec (toggleDocumentSelection docId) st in
  let twice := exec (toggleDocumentSelection docId) once in
  (In x (selectedDocuments twice) <-> In x (selectedDocuments st))
  /\ (In docId (selectedDocuments once) <-> ~ In docId (selectedDocuments st))
  /\ (In x (selectedDocuments once) <->
        (x = docId /\ ~ In docId (selectedDocuments st))
        \/ (x <> docId /\ In x (selectedDocuments st)))
  /\ (selectedDocuments once =
        if includes (selectedDocuments st) docId
        then filter (fun y => negb (Js.eqb y docId)) (selectedDocuments st)
        else selectedDocuments st ++ [docId]).
Proof.
  cbn. repeat split; try apply In_toggle; try rewrite !In_toggle.
  - intros [[-> H] | [Hn [[-> _] | [_ H]]]]; try congruence.
    destruct (in_dec (list_eq_dec N.eq_dec) docId (selectedDocuments st));
      [assumption | exfalso; apply H; left; auto].
  - intros H.
    destruct (list_eq_dec N.eq_dec x docId) as [-> | Hn].
    + left. split; [reflexivity |].
      intros [[_ H'] | [H' _]]; congruence.
    + right. split; [assumption |]. right. split; assumption.
  - intros [[_ H] | [H _]]; congruence.
  - intros H. left. split; [reflexivity | assumption].
Qed.

(** ** Asking a question: request and reply *)

Lemma preconditions_pass (st : State) :
  question_blank st || no_documents st || none_selected st = false ->
  question_blank st = false /\ no_documents st = false
  /\ none_selected st = false.
Proof.
  intros H. apply orb_false_iff in H. destruct H as [H Hs].
  apply orb_false_iff in H. destruct H as [Hq Hd]. auto.
Qed.

Lemma query_parked (now : Z) (st : State) (evs : list Event) :
  question_blank st || no_documents st || none_selected st = false ->
  unanswered (length (requests st)) evs = true ->
  In (AwaitQuery (length (requests st)))
     (tasks (run evs (exec (sendMessage now) st))).
Proof.
  intros Hpre Hevs. destruct (preconditions_pass st Hpre) as [Hq [Hd Hs]].
  apply (task_kept (AwaitQuery (length (requests st))) _ evs _ eq_refl Hevs).
  rewrite (sendMessage_passes now st Hq Hd Hs). left. reflexivity.
Qed.

(** C7: when the preconditions pass, the query request carries the session
    identifier, the question text, the selection and [top_k = 5]; whatever
    happens in between, a successful response appends one ai entry with the
    answer as content and the sources (the empty list when absent) as
    citations, and a failure appends one system entry with the backend's
    detail, or the transport message when there is no detail. *)
Theorem C7_query_request_and_reply (now now' : Z) (st : State)
    (evs : list Event) (body : QueryData) (e : AxiosError)
    (Hpre : question_blank st || no_documents st || none_selected st = false)
    (Hevs : unanswered (length (requests st)) evs = true) :
  let rid := length (requests st) in
  let st1 := exec (sendMessage now) st in
  let s := run evs st1 in
  requests st1
  = requests st
    ++ [PostQuery (userId st) (inputMessage st) (selectedDocuments st) 5]
  /\ messages (handle (QuerySettles rid (Fulfilled body) now') s)
     = messages s
       ++ [mkMessage (now' + 1) ai (answer body)
             (Some (match answer_sources body with
                    | Some l => l
                    | None => []
                    end))]
  /\ messages (handle (QuerySettles rid (Rejected e) now') s)
     = messages s
       ++ [mkMessage (now' + 1) system
             ([10060]%N ++ Js.lit " Error getting response: " ++ error_text e)
             None]
  /\ error_text e
     = match response e with
       | Some r =>
           match data r with
           | Some d =>
               match detail d with
               | Some txt => if Js.truthy txt then txt else message e
               | None => message e
               end
           | None => message e
           end
       | None => message e
       end.
Proof.
  intros rid st1 s.
  pose proof (query_parked now st evs Hpre Hevs) as Hin.
  destruct (preconditions_pass st Hpre) as [Hq [Hd Hs]].
  repeat split.
  - unfold st1. rewrite (sendMessage_passes now st Hq Hd Hs).
    unfold requests; cbn. rewrite requests_of_app. reflexivity.
  - apply (querySettles_messages rid (Fulfilled body) now' s Hin).
  - apply (querySettles_messages rid (Rejected e) now' s Hin).
  - apply error_text_cases.
Qed.

Lemma C7_query_request_and_reply_witness :
  (question_blank ready_state || no_documents ready_state
   || none_selected ready_state = false)
  /\ unanswered (length (requests ready_state)) [CardClicked 0] = true
  /\ messages
       (handle (QuerySettles 0 (Fulfilled sample_answer) 8)
          (run [CardClicked 0] (exec (sendMessage 7) ready_state)))
     = [mkMessage 7 user (Js.lit "What is the summary?") None;
        mkMessage 9 ai (Js.lit "It is a report.") (Some [sample_source])].
Proof.
  split; [reflexivity | split; [reflexivity |]].
  exact (proj1 (proj2 (C7_query_request_and_reply 7 8 ready_state
                         [CardClicked 0] sample_answer network_error
                         eq_refl eq_refl))).
Defined.

(** C8: with non-empty text and a selection, the user entry is appended
    before the query request goes out, and the entry that the response
    appends comes after it in the transcript, whatever happens in between. *)
Theorem C8_user_entry_first (now now' : Z) (st : State) (evs : list Event)
    (o : Outcome QueryData)
    (Hpre : question_blank st || no_documents st || none_selected st = false)
    (Hevs : unanswered (length (requests st)) evs = true) :
  let rid := length (requests st) in
  let entry := mkMessage now user (inputMessage st) None in
  let st1 := exec (sendMessage now) st in
  let reply := match o with
               | Fulfilled body => aiMessage body now'
               | Rejected e => systemMessage (now' + 1) (query_error_text e)
               end in
  trace st1
  = trace st
    ++ [Appended entry;
        Requested (PostQuery (userId st) (inputMessage st)
                     (selectedDocuments st) 5)]
  /\ messages st1 = messages st ++ [entry]
  /\ (exists between,
        messages (handle (QuerySettles rid o now') (run evs st1))
        = messages st ++ [entry] ++ between ++ [reply])
  /\ (msg_type reply = ai \/ msg_type reply = system).
Proof.
  intros rid entry st1 reply.
  pose proof (query_parked now st evs Hpre Hevs) as Hin.
  destruct (preconditions_pass st Hpre) as [Hq [Hd Hs]].
  assert (Hst1 : messages st1 = messages st ++ [entry]).
  { unfold st1. rewrite (sendMessage_passes now st Hq Hd Hs). reflexivity. }
  repeat split.
  - unfold st1. rewrite (sendMessage_passes now st Hq Hd Hs). reflexivity.
  - exact Hst1.
  - destruct (run_messages evs st1) as [between [Hb _]].
    exists between.
    change (messages (handle (QuerySettles rid o now') (run evs st1))
            = messages st ++ [entry] ++ between ++ [reply]).
    rewrite (querySettles_messages rid o now' (run evs st1) Hin).
    rewrite Hb, Hst1, <- !app_assoc. reflexivity.
  - destruct o; [left | right]; reflexivity.
Qed.

Lemma C8_user_entry_first_witness :
  (question_blank ready_state || no_documents ready_state
   || none_selected ready_state = false)
  /\ unanswered (length (requests ready_state)) [FilesDropped [] 8] = true
  /\ exists between,
       messages
         (handle (QuerySettles 0 (Rejected backend_error) 9)
            (run [FilesDropped [] 8] (exec (sendMessage 7) ready_state)))
       = messages ready_state
         ++ [mkMessage 7 user (inputMessage ready_state) None]
         ++ between
         ++ [systemMessage 10 (query_error_text backend_error)].
Proof.
  split; [reflexivity | split; [reflexivity |]].
  exact (proj1 (proj2 (proj2 (C8_user_entry_first 7 9 ready_state
                                [FilesDropped [] 8] (Rejected backend_error)
                                eq_refl eq_refl)))).
Defined.

(** ** Listing and deleting documents *)

Lemma loadUserDocuments_issue (st : State) :
  exec loadUserDocuments st
  = mkState (messages st) (inputMessage st) (isLoading st)
      (uploadedDocuments st) (isUploading st) (selectedDocuments st)
      (userId st) (AwaitList (length (requests st)) :: tasks st) (timers st)
      (trace st ++ [Requested (GetDocuments (userId st))]).
Proof. reflexivity. Qed.

Lemma deleteDocument_issue (st : State) :
  exec deleteDocument st
  = mkState (messages st) (inputMessage st) (isLoading st)
      (uploadedDocuments st) (isUploading st) (selectedDocuments st)
      (userId st) (AwaitDelete (length (requests st)) :: tasks st) (timers st)
      (trace st ++ [Requested (DeleteDocuments (userId st))]).
Proof. reflexivity. Qed.

(** C5: a successful delete-all clears the document list and the selection
    together and appends the one confirming system entry; a failed one
    leaves both as they are and appends one error entry; the request itself
    changes neither; and the control is disabled exactly when the list is
    empty, in which case a click does nothing. *)
Theorem C5_delete_all (now : Z) (st : State) (evs : list Event)
    (e : AxiosError)
    (Hevs : unanswered (length (requests st)) evs = true) :
  let rid := length (requests st) in
  let st1 := exec deleteDocument st in
  let s := run evs st1 in
  let ok := handle (DeleteSettles rid (Fulfilled tt) now) s in
  let ko := handle (DeleteSettles rid (Rejected e) now) s in
  (requests st1 = requests st ++ [DeleteDocuments (userId st)]
   /\ uploadedDocuments st1 = uploadedDocuments st
   /\ selectedDocuments st1 = selectedDocuments st
   /\ messages st1 = messages st)
  /\ (uploadedDocuments ok = [] /\ selectedDocuments ok = []
      /\ messages ok = messages s ++ [systemMessage now deleted_text])
  /\ (uploadedDocuments ko = uploadedDocuments s
      /\ selectedDocuments ko = selectedDocuments s
      /\ messages ko = messages s ++ [systemMessage now (delete_error_text e)])
  /\ (clearAllDisabled st = true <-> uploadedDocuments st = [])
  /\ handle ClearAllClicked st = (if clearAllDisabled st then st else st1).
Proof.
  intros rid st1 s ok ko.
  assert (Hin : In (AwaitDelete rid) (tasks s)).
  { apply (task_kept (AwaitDelete rid) rid evs st1 eq_refl Hevs).
    left. reflexivity. }
  split; [| split; [| split; [| split]]].
  - unfold st1. rewrite deleteDocument_issue. unfold requests; cbn.
    rewrite requests_of_app. auto.
  - apply (deleteSettles_effect rid (Fulfilled tt) now s Hin).
  - apply (deleteSettles_effect rid (Rejected e) now s Hin).
  - unfold clearAllDisabled. rewrite Nat.eqb_eq. apply length_zero_iff_nil.
  - unfold handle, exec, dispatch, bind, get. cbn.
    destruct (clearAllDisabled st); reflexivity.
Qed.

Lemma C5_delete_all_witness :
  unanswered (length (requests ready_state)) [SelectAllClicked] = true
  /\ uploadedDocuments
       (handle (DeleteSettles 0 (Fulfilled tt) 9)
          (run [SelectAllClicked] (exec deleteDocument ready_state))) = []
  /\ selectedDocuments
       (handle (DeleteSettles 0 (Fulfilled tt) 9)
          (run [SelectAllClicked] (exec deleteDocument ready_state))) = []
  /\ messages
       (handle (DeleteSettles 0 (Fulfilled tt) 9)
          (run [SelectAllClicked] (exec deleteDocument ready_state)))
     = messages (run [SelectAllClicked] (exec deleteDocument ready_state))
       ++ [systemMessage 9 deleted_text].
Proof.
  split; [reflexivity |].
  exact (proj1 (proj2 (C5_delete_all 9 ready_state [SelectAllClicked]
                         network_error eq_refl))).
Defined.

(** C6: a successful listing replaces the document list by the documents of
    the response (the empty list when the field is absent), whatever the
    list was; a failed one leaves the list as it is; in both cases the
    transcript and the selection are unchanged, and issuing the request
    changes none of the three. *)
Theorem C6_list_documents (st : State) (evs : list Event)
    (documents : option (list Document)) (e : AxiosError)
    (Hevs : unanswered (length (requests st)) evs = true) :
  let rid := length (requests st) in
  let st1 := exec loadUserDocuments st in
  let s := run evs st1 in
  let ok := handle (ListSettles rid (Fulfilled documents)) s in
  let ko := handle (ListSettles rid (Rejected e)) s in
  (requests st1 = requests st ++ [GetDocuments (userId st)]
   /\ uploadedDocuments st1 = uploadedDocuments st
   /\ selectedDocuments st1 = selectedDocuments st
   /\ messages st1 = messages st)
  /\ (uploadedDocuments ok
      = match documents with Some l => l | None => [] end
      /\ messages ok = messages s
      /\ selectedDocuments ok = selectedDocuments s)
  /\ (uploadedDocuments ko = uploadedDocuments s
      /\ messages ko = messages s
      /\ selectedDocuments ko = selectedDocuments s).
Proof.
  intros rid st1 s ok ko.
  assert (Hin : In (AwaitList rid) (tasks s)).
  { apply (task_kept (AwaitList rid) rid evs st1 eq_refl Hevs).
    left. reflexivity. }
  split; [| split].
  - unfold st1. rewrite loadUserDocuments_issue. unfold requests; cbn.
    rewrite requests_of_app. auto.
  - destruct (listSettles_effect rid (Fulfilled documents) s Hin)
      as [Hd [Hm [Hs _]]].
    split; [| split]; [| exact Hm | exact Hs].
    unfold ok. rewrite Hd. destruct documents; reflexivity.
  - destruct (listSettles_effect rid (Rejected e) s Hin) as [Hd [Hm [Hs _]]].
    split; [exact Hd | split; [exact Hm | exact Hs]].
Qed.

Lemma C6_list_documents_witness :
  unanswered (length (requests ready_state)) [CardClicked 0] = true
  /\ uploadedDocuments
       (handle (ListSettles 0 (Fulfilled (Some [listed_a; listed_b])))
          (run [CardClicked 0] (exec loadUserDocuments ready_state)))
     = [listed_a; listed_b]
  /\ messages
       (handle (ListSettles 0 (Fulfilled (Some [listed_a; listed_b])))
          (run [CardClicked 0] (exec loadUserDocuments ready_state)))
     = messages (run [CardClicked 0] (exec loadUserDocuments ready_state))
  /\ selectedDocuments
       (handle (ListSettles 0 (Fulfilled (Some [listed_a; listed_b])))
          (run [CardClicked 0] (exec loadUserDocuments ready_state)))
     = selectedDocuments
         (run [CardClicked 0] (exec loadUserDocuments ready_state)).
Proof.
  split; [reflexivity |].
  exact (proj1 (proj2 (C6_list_documents ready_state [CardClicked 0]
                         (Some [listed_a; listed_b]) network_error eq_refl))).
Defined.

(** ** The selection and the document list *)

Lemma selection_listedb_spec (st : State) :
  selection_listedb st = true <-> selection_listed st.
Proof.
  unfold selection_listedb, selection_listed, has_docId.
  rewrite forallb_forall. split; intros H docId Hin.
  - specialize (H docId Hin). apply existsb_exists in H.
    destruct H as [doc [Hd He]]. exists doc. split; [exact Hd |].
    destruct (docId_of doc) as [d|]; [| discriminate].
    apply Js_eqb_eq in He. subst. reflexivity.
  - destruct (H docId Hin) as [doc [Hd He]]. apply existsb_exists.
    exists doc. split; [exact Hd |]. rewrite He. apply Js_eqb_refl.
Qed.

Lemma In_filter_Boolean (x : Js.str) (l : list (option Js.str)) :
  In x (filter_Boolean l) -> In (Some x) l.
Proof.
  induction l as [|[s|] l IH]; simpl; [intros [] | |].
  - destruct (Js.truthy s); simpl.
    + intros [-> | H]; [left; reflexivity | right; auto].
    + intros H; right; auto.
  - intros H; right; auto.
Qed.

#[local] Instance stays_listed_preorder : PreOrder stays_listed.
Proof. split; unfold stays_listed; [intros st | intros a b c]; auto. Qed.

Lemma stays_listed_same {A} (m : M A) :
  (forall st, uploadedDocuments (snd (m st)) = uploadedDocuments st
              /\ selectedDocuments (snd (m st)) = selectedDocuments st) ->
  respects stays_listed m.
Proof.
  intros H st Hinv. destruct (H st) as [Hd Hs].
  unfold selection_listed. rewrite Hd, Hs. exact Hinv.
Qed.

Lemma stays_listed_more (newFiles : list Document) :
  respects stays_listed (setUploadedDocuments (fun prev => prev ++ newFiles)).
Proof.
  intros st Hinv docId Hin. destruct (Hinv docId Hin) as [doc [Hd He]].
  exists doc. split; [| exact He]. cbn. apply in_or_app. left. exact Hd.
Qed.

Lemma stays_listed_none :
  respects stays_listed (setSelectedDocuments (fun _ => [])).
Proof. intros st _ docId []. Qed.

Lemma stays_listed_deleted (now : Z) :
  respects stays_listed (deleteDocument_then now).
Proof. intros st _ docId []. Qed.

Lemma stays_listed_all : respects stays_listed selectAllDocuments.
Proof.
  intros st _ docId Hin. cbn in Hin. apply In_filter_Boolean in Hin.
  apply in_map_iff in Hin. destruct Hin as [doc [He Hd]].
  exists doc. split; [exact Hd | exact He].
Qed.

Lemma stays_listed_card (i : nat) :
  respects stays_listed (dispatch (CardClicked i)).
Proof.
  intros st Hinv. unfold dispatch, bind, get. cbn.
  destruct (nth_error (uploadedDocuments st) i) as [doc|] eqn:Hn;
    [| exact Hinv].
  unfold cardClick. destruct (docId_of doc) as [d|] eqn:Hd; [| exact Hinv].
  destruct (Js.truthy d); [| exact Hinv].
  intros docId Hin. cbn in Hin. apply In_toggle in Hin.
  destruct Hin as [[-> _] | [_ Hin]].
  - exists doc. split; [| exact Hd]. cbn. apply (nth_error_In _ _ Hn).
  - destruct (Hinv docId Hin) as [doc' [H1 H2]]. exists doc'. auto.
Qed.

Ltac stays_listed_prim :=
  match goal with
  | |- respects _ (deleteDocument_then _) => apply stays_listed_deleted
  | |- respects _ selectAllDocuments => apply stays_listed_all
  | |- respects _ (setUploadedDocuments (fun prev => prev ++ _)) =>
      apply stays_listed_more
  | |- respects _ (setSelectedDocuments (fun _ => [])) =>
      apply stays_listed_none
  | |- respects _ (setUploadedDocuments _) => fail 1
  | |- respects _ (setSelectedDocuments _) => fail 1
  | |- respects _ (appendMessage _) =>
      apply stays_listed_same; intros ?; split; reflexivity
  | |- respects _ (emit _) =>
      apply stays_listed_same; intros ?; split; reflexivity
  | _ => frame_prim stays_listed_same; intros ?; split; reflexivity
  end.

Lemma stays_listed_dispatch (ev : Event) :
  refreshes ev = false -> respects stays_listed (dispatch ev).
Proof.
  intros Hev.
  destruct ev as [ | | | | | | i | | | | rid [documents|e] | | | ];
    try discriminate Hev;
    try apply stays_listed_card;
    respects_walk ltac:(idtac; stays_listed_prim).
Qed.

Lemma take_task_existsb (p : Task -> bool) (ts : list Task) :
  match take_task p ts with
  | Some _ => existsb p ts = true
  | None => existsb p ts = false
  end.
Proof.
  induction ts as [|t ts IH]; simpl; [reflexivity |].
  destruct (p t); simpl; [reflexivity |].
  destruct (take_task p ts) as [[u rest]|]; exact IH.
Qed.

Lemma listSettles_fulfilled (rid : nat) (documents : option (list Document))
    (st : State) :
  let st' := handle (ListSettles rid (Fulfilled documents)) st in
  selectedDocuments st' = selectedDocuments st
  /\ uploadedDocuments st'
     = if existsb (awaits_list rid) (tasks st)
       then match documents with Some l => l | None => [] end
       else uploadedDocuments st.
Proof.
  unfold handle, exec, dispatch, listSettles, bind, get, emit. cbn.
  pose proof (take_task_existsb (awaits_list rid) (tasks st)) as H.
  destruct (take_task (awaits_list rid) (tasks st)) as [[u rest]|];
    rewrite H; cbn; split; reflexivity.
Qed.

Lemma deleteSettles_fulfilled (rid : nat) (now : Z) (st : State) :
  let st' := handle (DeleteSettles rid (Fulfilled tt) now) st in
  selectedDocuments st'
  = (if existsb (awaits_delete rid) (tasks st) then []
     else selectedDocuments st)
  /\ uploadedDocuments st'
     = (if existsb (awaits_delete rid) (tasks st) then []
        else uploadedDocuments st).
Proof.
  unfold handle, exec, dispatch, deleteSettles, bind, get, emit. cbn.
  pose proof (take_task_existsb (awaits_delete rid) (tasks st)) as H.
  destruct (take_task (awaits_delete rid) (tasks st)) as [[u rest]|];
    rewrite H; cbn; split; reflexivity.
Qed.

(** C3 (as the code has it): every event other than a successful listing
    response (card click, select-all, deselect-all, upload, failed listing,
    delete-all and the rest) keeps every selected identifier listed when
    that held before.  In every state, a successful listing response
    replaces the list and leaves the selection as it was, and a successful
    delete-all response clears the selection and the list together. *)
Theorem C3_selection_stays_listed (ev : Event) (st : State) (rid : nat)
    (documents : option (list Document)) (now : Z) :
  (selection_listed st -> refreshes ev = false ->
   selection_listed (handle ev st))
  /\ selectedDocuments (handle (ListSettles rid (Fulfilled documents)) st)
     = selectedDocuments st
  /\ uploadedDocuments (handle (ListSettles rid (Fulfilled documents)) st)
     = (if existsb (awaits_list rid) (tasks st)
        then match documents with Some l => l | None => [] end
        else uploadedDocuments st)
  /\ selectedDocuments (handle (DeleteSettles rid (Fulfilled tt) now) st)
     = (if existsb (awaits_delete rid) (tasks st) then []
        else selectedDocuments st)
  /\ uploadedDocuments (handle (DeleteSettles rid (Fulfilled tt) now) st)
     = (if existsb (awaits_delete rid) (tasks st) then []
        else uploadedDocuments st).
Proof.
  split.
  { intros Hinv Hev.
    pose proof (stays_listed_dispatch ev Hev) as H. apply (H st Hinv). }
  split; [apply listSettles_fulfilled |].
  split; [apply listSettles_fulfilled |].
  apply deleteSettles_fulfilled.
Qed.

(** The upload of [select_then_refresh], its record selected, then a click
    on Clear All: request 3 is the delete-all, and its successful response
    is the event the theorem is applied at. *)
Lemma C3_selection_stays_listed_witness :
  selection_listed (run (select_then_refresh ++ [ClearAllClicked]) (init 0))
  /\ refreshes (DeleteSettles 3 (Fulfilled tt) 9) = false
  /\ nth_error
       (requests (run (select_then_refresh ++ [ClearAllClicked]) (init 0))) 3
     = Some (DeleteDocuments (userId (init 0)))
  /\ existsb (awaits_delete 3)
       (tasks (run (select_then_refresh ++ [ClearAllClicked]) (init 0)))
     = true
  /\ selection_listed
       (handle (DeleteSettles 3 (Fulfilled tt) 9)
          (run (select_then_refresh ++ [ClearAllClicked]) (init 0))).
Proof.
  assert (H : selection_listed
                (run (select_then_refresh ++ [ClearAllClicked]) (init 0)))
    by (apply selection_listedb_spec; vm_compute; reflexivity).
  split; [exact H | split; [reflexivity |]].
  split; [vm_compute; reflexivity | split; [vm_compute; reflexivity |]].
  exact (proj1 (C3_selection_stays_listed (DeleteSettles 3 (Fulfilled tt) 9)
                  (run (select_then_refresh ++ [ClearAllClicked]) (init 0))
                  3 None 9) H eq_refl).
Defined.

(** C3 as stated fails for the list refresh: the optimistic record of an
    upload is selected under the identifier of the upload response; the
    refresh scheduled by the upload then replaces the list by the backend's
    record, whose identifier is another one, and the selection keeps the
    old identifier. *)
Lemma C3_refresh_leaves_stale_selection :
  let before := run select_then_refresh (init 0) in
  let after := handle (ListSettles 2 (Fulfilled (Some [listed_a]))) before in
  selection_listed before
  /\ selectedDocuments after = [Js.lit "a.pdf"]
  /\ uploadedDocuments after = [listed_a]
  /\ docId_of listed_a = Some (Js.lit "d1")
  /\ ~ selection_listed after.
Proof.
  cbv zeta. split; [apply selection_listedb_spec; reflexivity |].
  split; [reflexivity | split; [reflexivity | split; [reflexivity |]]].
  intros H. apply selection_listedb_spec in H. discriminate H.
Qed.

(** ** Parked batches only wait for requests that were issued *)

#[local] Instance stays_bounded_preorder : PreOrder stays_bounded.
Proof. split; unfold stays_bounded; [intros st | intros a b c]; auto. Qed.

Lemma take_task_incl (p : Task -> bool) (ts : list Task) (t : Task)
    (rest : list Task) :
  take_task p ts = Some (t, rest) ->
  In t ts /\ forall x, In x rest -> In x ts.
Proof.
  revert rest; induction ts as [|a ts IH]; simpl; intros rest; [discriminate |].
  destruct (p a).
  - intros H; injection H as <- <-. split; [left; reflexivity | auto].
  - destruct (take_task p ts) as [[t' r']|]; [| discriminate].
    intros H; injection H as <- <-. destruct (IH r' eq_refl) as [Ht Hr].
    split; [right; exact Ht |].
    intros x [-> | Hx]; [left; reflexivity | right; apply Hr; exact Hx].
Qed.

(** [st'] parks no batch that [st] did not park, with no new pending
    request, and has issued at least the requests of [st]. *)
Lemma bounded_mono (st st' : State) :
  (forall files ps, In (AwaitUploads files ps) (tasks st') ->
     exists ps0, In (AwaitUploads files ps0) (tasks st)
                 /\ forall f rid, In (Pending f rid) ps -> In (Pending f rid) ps0) ->
  length (requests st) <= length (requests st') ->
  stays_bounded st st'.
Proof.
  intros Hsub Hlen Hb files ps f rid Hin Hp.
  destruct (Hsub files ps Hin) as [ps0 [Hin0 Hps]].
  specialize (Hb files ps0 f rid Hin0 (Hps f rid Hp)). lia.
Qed.

Lemma stays_bounded_same {A} (m : M A) :
  (forall st, tasks (snd (m st)) = tasks st
              /\ requests (snd (m st)) = requests st) ->
  respects stays_bounded m.
Proof.
  intros H st. destruct (H st) as [Ht Hr]. apply bounded_mono.
  - rewrite Ht. intros files ps Hin. exists ps. auto.
  - rewrite Hr. lia.
Qed.

Lemma stays_bounded_emit (e : Effect) : respects stays_bounded (emit e).
Proof.
  intros st. apply bounded_mono.
  - intros files ps Hin. exists ps. auto.
  - unfold requests; cbn. rewrite requests_of_app, length_app. lia.
Qed.

Lemma stays_bounded_appendMessage (m : Message) :
  respects stays_bounded (appendMessage m).
Proof.
  apply stays_bounded_same. intros st. unfold requests; cbn.
  rewrite requests_of_app, app_nil_r. auto.
Qed.

Lemma stays_bounded_simple (t : Task) (rid : nat) :
  simple_task t = Some rid ->
  respects stays_bounded (setTasks (fun ts => t :: ts)).
Proof.
  intros Ht st. apply bounded_mono; [| unfold requests; cbn; lia].
  intros files ps [-> | Hin]; [discriminate Ht |].
  exists ps. auto.
Qed.

Ltac stays_bounded_prim :=
  match goal with
  | |- respects _ (appendMessage _) => apply stays_bounded_appendMessage
  | |- respects _ (emit _) => apply stays_bounded_emit
  | |- respects _ (setTasks (fun ts => ?t :: ts)) =>
      eapply stays_bounded_simple; reflexivity
  | |- respects _ (setTasks _) => fail 1
  | _ => frame_prim stays_bounded_same; intros ?; split; reflexivity
  end.

Lemma In_pendings (base : nat) (files : list File) (f : File) (rid : nat) :
  In (Pending f rid) (pendings base files) ->
  base <= rid < base + length files.
Proof.
  revert base; induction files as [|g files IH]; intros base; simpl;
    [intros [] |].
  intros [H | H].
  - injection H as _ <-. lia.
  - apply IH in H. lia.
Qed.

Lemma In_settle_promise (rid : nat) (fn : option Js.str)
    (ps : list UploadPromise) (f : File) (r : nat) :
  In (Pending f r) (map (settle_promise rid fn) ps) -> In (Pending f r) ps.
Proof.
  intros H. apply in_map_iff in H. destruct H as [[g r' | d] [He Hin]].
  - cbn in He. destruct (r' =? rid); [discriminate | congruence].
  - discriminate.
Qed.

Ltac settle_bounded :=
  let u := fresh "u" in
  let rest := fresh "rest" in
  let Heq := fresh "Heq" in
  let Hu := fresh "Hu" in
  let Hrest := fresh "Hrest" in
  intros st; cbn;
  match goal with
  | |- context [take_task ?p ?ts] =>
      destruct (take_task p ts) as [[u rest]|] eqn:Heq
  end;
  [ destruct (take_task_incl _ _ _ _ Heq) as [Hu Hrest];
    repeat match goal with
           | |- context [match ?x with _ => _ end] => destruct x; cbn
           end
  | ];
  (apply bounded_mono;
   [ cbn; intros files ps Hin; try (exists ps; split; [auto | auto]; fail)
   | unfold requests; cbn; rewrite ?requests_of_app, ?length_app; cbn; lia ]).

Lemma stays_bounded_onDrop (acceptedFiles : list File) (now : Z) :
  respects stays_bounded (onDrop acceptedFiles now).
Proof.
  intros st. change (stays_bounded st (exec (onDrop acceptedFiles now) st)).
  rewrite onDrop_unfold. cbv zeta.
  assert (Hlen : forall es,
             length (requests_of (trace st ++ upload_requests (userId st)
                                               acceptedFiles ++ es))
             = length (requests st) + length acceptedFiles
               + length (requests_of es)).
  { intros es. unfold requests.
    rewrite !requests_of_app, requests_of_upload_requests.
    rewrite !length_app, length_map. lia. }
  destruct (promise_all _) as [newFiles|].
  - apply bounded_mono.
    + cbn. intros files ps Hin. exists ps. auto.
    + unfold requests at 2. cbn. rewrite <- app_assoc, Hlen. lia.
  - intros Hb files ps f rid Hin Hp. unfold requests. cbn in *.
    rewrite <- (app_nil_r (upload_requests _ _)), Hlen.
    destruct Hin as [H | Hin].
    + injection H as <- <-. apply In_pendings in Hp. lia.
    + specialize (Hb files ps f rid Hin Hp). lia.
Qed.

Lemma stays_bounded_dispatch (ev : Event) :
  respects stays_bounded (dispatch ev).
Proof.
  destruct ev; try solve [respects_walk ltac:(idtac; stays_bounded_prim)].
  - apply stays_bounded_onDrop.
  - unfold dispatch, listSettles, bind, get, emit. settle_bounded.
  - unfold dispatch, uploadSettles, bind, get, emit. settle_bounded.
    destruct Hin as [H | Hin]; [| exists ps; auto].
    injection H as <- <-. exists uploadPromises.
    split; [exact Hu | intros f r; apply In_settle_promise].
  - unfold dispatch, querySettles, bind, get, emit. settle_bounded.
  - unfold dispatch, deleteSettles, bind, get, emit. settle_bounded.
Qed.

Lemma reachable_bounded (evs : list Event) (t0 : Z) :
  uploads_bounded (run evs (init t0)).
Proof.
  apply (respects_run stays_bounded evs stays_bounded_dispatch (init t0)).
  intros files ps f rid [].
Qed.

(** ** Upload batches *)

Lemma pendings_seq (base k : nat) (files : list File) :
  pendings (base + k) files
  = map (fun p => Pending (snd p) (base + fst p))
      (combine (seq k (length files)) files).
Proof.
  revert k; induction files as [|f files IH]; intros k; simpl;
    [reflexivity |].
  f_equal. rewrite <- IH. f_equal. lia.
Qed.

Lemma pendings_promises_after (base : nat) (files : list File)
    (resp : nat -> option Js.str) :
  pendings base files = promises_after base files resp [].
Proof.
  rewrite <- (Nat.add_0_r base) at 1. rewrite pendings_seq.
  unfold promises_after. apply map_ext. intros p. reflexivity.
Qed.

Lemma In_combine_seq (k : nat) (files : list File) (i : nat) (f : File) :
  In (i, f) (combine (seq k (length files)) files) ->
  k <= i < k + length files.
Proof.
  intros H. apply in_combine_l in H. apply in_seq in H. exact H.
Qed.

Lemma existsb_eqb_In (i : nat) (l : list nat) :
  existsb (Nat.eqb i) l = true <-> In i l.
Proof.
  rewrite existsb_exists. split.
  - intros [x [Hx He]]. apply Nat.eqb_eq in He. subst. exact Hx.
  - intros H. exists i. split; [exact H | apply Nat.eqb_refl].
Qed.

Lemma settle_promises_after (base : nat) (files : list File)
    (resp : nat -> option Js.str) (done : list nat) (i : nat) :
  map (settle_promise (base + i) (resp i)) (promises_after base files resp done)
  = promises_after base files resp (i :: done).
Proof.
  unfold promises_after. rewrite map_map. apply map_ext.
  intros [j f]. cbn [fst snd existsb].
  destruct (existsb (Nat.eqb j) done) eqn:Hd.
  - rewrite orb_true_r. reflexivity.
  - rewrite orb_false_r. cbn [settle_promise].
    destruct (Nat.eqb_spec j i) as [-> | Hne].
    + rewrite Nat.eqb_refl. reflexivity.
    + destruct (Nat.eqb_spec (base + j) (base + i)) as [He | _];
        [lia | reflexivity].
Qed.

Lemma promise_all_resolved (A : Type) (c : A -> bool) (r : A -> Document)
    (q : A -> UploadPromise) (l : list A) :
  (forall x, In x l -> c x = true) ->
  promise_all (map (fun x => if c x then Resolved (r x) else q x) l)
  = Some (map r l).
Proof.
  induction l as [|x l IH]; intros H; simpl; [reflexivity |].
  rewrite (H x) by (left; reflexivity).
  rewrite IH by (intros y Hy; apply H; right; exact Hy). reflexivity.
Qed.

Lemma promise_all_pending (A : Type) (c : A -> bool) (r : A -> Document)
    (f : A -> File) (rid : A -> nat) (l : list A) (x : A) :
  In x l -> c x = false ->
  promise_all
    (map (fun x => if c x then Resolved (r x) else Pending (f x) (rid x)) l)
  = None.
Proof.
  induction l as [|y l IH]; intros Hin Hx; simpl; [destruct Hin |].
  destruct (c y) eqn:Hy.
  - destruct Hin as [-> | Hin]; [congruence |].
    rewrite (IH Hin Hx). reflexivity.
  - reflexivity.
Qed.

Lemma nth_error_zip (A B : Type) (l : list A) (l' : list B) (i : nat)
    (a : A) (b : B) :
  nth_error l i = Some a -> nth_error l' i = Some b ->
  nth_error (combine l l') i = Some (a, b).
Proof.
  revert l' i; induction l as [|x l IH]; intros [|y l'] [|i];
    simpl; try discriminate.
  - congruence.
  - apply IH.
Qed.

Lemma nth_position (files : list File) (i : nat) :
  i < length files ->
  exists f, In (i, f) (combine (seq 0 (length files)) files).
Proof.
  intros Hi. destruct (nth_error files i) as [f|] eqn:Hn.
  - exists f. apply (nth_error_In _ i). apply nth_error_zip; [| exact Hn].
    rewrite nth_error_nth' with (d := 0) by (rewrite length_seq; exact Hi).
    rewrite seq_nth by exact Hi. reflexivity.
  - apply nth_error_None in Hn. lia.
Qed.

Lemma promise_all_after_all (base : nat) (files : list File)
    (resp : nat -> option Js.str) (done : list nat) :
  (forall i, i < length files -> In i done) ->
  promise_all (promises_after base files resp done)
  = Some (optimistic_records files resp).
Proof.
  intros H. unfold promises_after, optimistic_records.
  apply (promise_all_resolved _ (fun p => existsb (Nat.eqb (fst p)) done)
           (fun p => upload_record (snd p) (resp (fst p)))
           (fun p => Pending (snd p) (base + fst p))).
  intros [i f] Hin. apply In_combine_seq in Hin. cbn.
  apply existsb_eqb_In. apply H. lia.
Qed.

Lemma promise_all_after_some (base : nat) (files : list File)
    (resp : nat -> option Js.str) (done : list nat) (i : nat) :
  i < length files -> ~ In i done ->
  promise_all (promises_after base files resp done) = None.
Proof.
  intros Hi Hn. destruct (nth_position files i Hi) as [f Hf].
  unfold promises_after.
  apply (promise_all_pending _ (fun p => existsb (Nat.eqb (fst p)) done)
           (fun p => upload_record (snd p) (resp (fst p)))
           snd (fun p => base + fst p) _ (i, f) Hf).
  cbn. destruct (existsb (Nat.eqb i) done) eqn:He; [| reflexivity].
  apply existsb_eqb_In in He. contradiction.
Qed.

Lemma pending_after (base : nat) (files : list File)
    (resp : nat -> option Js.str) (done : list nat) (i : nat) :
  i < length files -> ~ In i done ->
  existsb (pending_on (base + i)) (promises_after base files resp done) = true.
Proof.
  intros Hi Hn. destruct (nth_position files i Hi) as [f Hf].
  apply existsb_exists.
  exists (Pending f (base + i)). split; [| cbn; apply Nat.eqb_refl].
  unfold promises_after. apply in_map_iff. exists (i, f). split; [| exact Hf].
  cbn. destruct (existsb (Nat.eqb i) done) eqn:He; [| reflexivity].
  apply existsb_eqb_In in He. contradiction.
Qed.

Lemma same_client_refl (s : State) : same_client s s.
Proof. repeat split. Qed.

Lemma same_client_trans (a b c : State) :
  same_client a b -> same_client b c -> same_client a c.
Proof.
  unfold same_client.
  intros [H1 [H2 [H3 [H4 [H5 [H6 H7]]]]]] [G1 [G2 [G3 [G4 [G5 [G6 G7]]]]]].
  rewrite G1, G2, G3, G4, G5, G6, G7. auto 10.
Qed.

Ltac upload_settles Ht Hp :=
  unfold handle, exec, dispatch, uploadSettles, bind, get, emit;
  cbn [fst snd tasks]; rewrite Ht; cbn [take_task awaits_upload];
  rewrite Hp.

Lemma uploadSettles_partial (files : list File) (ps : list UploadPromise)
    (rest : list Task) (rid : nat) (fn : option Js.str) (now : Z) (s : State) :
  tasks s = AwaitUploads files ps :: rest ->
  existsb (pending_on rid) ps = true ->
  promise_all (map (settle_promise rid fn) ps) = None ->
  handle (UploadSettles rid (Fulfilled fn) now) s
  = mkState (messages s) (inputMessage s) (isLoading s) (uploadedDocuments s)
      (isUploading s) (selectedDocuments s) (userId s)
      (AwaitUploads files (map (settle_promise rid fn) ps) :: rest)
      (timers s) (trace s ++ [Settled rid]).
Proof.
  intros Ht Hp Hall. upload_settles Ht Hp. rewrite Hall. reflexivity.
Qed.

Lemma uploadSettles_last (files : list File) (ps : list UploadPromise)
    (rest : list Task) (rid : nat) (fn : option Js.str) (now : Z) (s : State)
    (newFiles : list Document) :
  tasks s = AwaitUploads files ps :: rest ->
  existsb (pending_on rid) ps = true ->
  promise_all (map (settle_promise rid fn) ps) = Some newFiles ->
  handle (UploadSettles rid (Fulfilled fn) now) s
  = mkState (messages s ++ [systemMessage now (uploaded_text files)])
      (inputMessage s) (isLoading s) (uploadedDocuments s ++ newFiles)
      false (selectedDocuments s) (userId s) rest (timers s ++ [2000%Z])
      ((trace s ++ [Settled rid])
       ++ [Appended (systemMessage now (uploaded_text files))]).
Proof.
  intros Ht Hp Hall. upload_settles Ht Hp. rewrite Hall. reflexivity.
Qed.

Lemma uploadSettles_rejected (files : list File) (ps : list UploadPromise)
    (rest : list Task) (rid : nat) (e : AxiosError) (now : Z) (s : State) :
  tasks s = AwaitUploads files ps :: rest ->
  existsb (pending_on rid) ps = true ->
  handle (UploadSettles rid (Rejected e) now) s
  = mkState (messages s ++ [systemMessage now (upload_error_text e)])
      (inputMessage s) (isLoading s) (uploadedDocuments s)
      false (selectedDocuments s) (userId s) rest (timers s)
      ((trace s ++ [Settled rid])
       ++ [Appended (systemMessage now (upload_error_text e))]).
Proof.
  intros Ht Hp. upload_settles Ht Hp. reflexivity.
Qed.

Lemma uploadSettles_orphan (rid : nat) (o : Outcome (option Js.str))
    (now : Z) (s : State) :
  (forall t, In t (tasks s) -> awaits_upload rid t = false) ->
  handle (UploadSettles rid o now) s = add_trace [Settled rid] s.
Proof.
  intros H. unfold handle, exec, dispatch, uploadSettles, bind, get, emit.
  cbn [fst snd tasks]. rewrite (take_task_none _ _ H). reflexivity.
Qed.

(** Fulfilments that leave a request of the batch pending only fill in
    promises. *)
Lemma batch_progress (base : nat) (files : list File)
    (resp : nat -> option Js.str) (clock : nat -> Z) (rest : list Task)
    (order : list nat) :
  forall (done : list nat) (s : State),
    tasks s = AwaitUploads files (promises_after base files resp done) :: rest ->
    NoDup order ->
    (forall i, In i order -> i < length files /\ ~ In i done) ->
    (exists j, j < length files /\ ~ In j done /\ ~ In j order) ->
    let s' := run (map (fulfilment base resp clock) order) s in
    tasks s'
    = AwaitUploads files (promises_after base files resp (rev order ++ done))
        :: rest
    /\ same_client s s'
    /\ trace s' = trace s ++ map (fun i => Settled (base + i)) order.
Proof.
  induction order as [|i order IH]; intros done s Ht Hnd Hin [j [Hj [Hjd Hjo]]].
  - cbn. rewrite app_nil_r. split; [exact Ht | split; [apply same_client_refl |]].
    reflexivity.
  - inversion Hnd as [|? ? Hi Hnd']; subst.
    destruct (Hin i (or_introl eq_refl)) as [Hlt Hid].
    cbv zeta.
    change (run (map (fulfilment base resp clock) (i :: order)) s)
      with (run (map (fulfilment base resp clock) order)
              (handle (UploadSettles (base + i) (Fulfilled (resp i)) (clock i))
                 s)).
    pose proof (pending_after base files resp done i Hlt Hid) as Hp.
    assert (Hall : promise_all (map (settle_promise (base + i) (resp i))
                                  (promises_after base files resp done)) = None).
    { rewrite settle_promises_after.
      apply (promise_all_after_some base files resp (i :: done) j Hj).
      intros [-> | H]; [apply Hjo; left; reflexivity | contradiction]. }
    rewrite (uploadSettles_partial files _ rest (base + i) (resp i) (clock i)
               s Ht Hp Hall).
    rewrite settle_promises_after.
    match goal with
    | |- context [run _ ?s1] => set (s1' := s1)
    end.
    destruct (IH (i :: done) s1') as [Ht' [Hsame Hset]].
    + reflexivity.
    + exact Hnd'.
    + intros k Hk. destruct (Hin k (or_intror Hk)) as [Hk1 Hk2].
      split; [exact Hk1 |]. intros [<- | H]; [contradiction | contradiction].
    + exists j. split; [exact Hj | split].
      * intros [-> | H]; [apply Hjo; left; reflexivity | contradiction].
      * intros H. apply Hjo. right. exact H.
    + split; [| split].
      * rewrite Ht'. cbn [rev]. rewrite <- app_assoc. reflexivity.
      * apply (same_client_trans s s1'); [| exact Hsame].
        unfold same_client, s1', requests; cbn.
        rewrite requests_of_app, app_nil_r. repeat split.
      * rewrite Hset. unfold s1'; cbn.
        rewrite <- app_assoc. reflexivity.
Qed.

Lemma onDrop_parks (files : list File) (now : Z) (st : State) :
  files <> [] ->
  handle (FilesDropped files now) st
  = mkState (messages st) (inputMessage st) (isLoading st)
      (uploadedDocuments st) true (selectedDocuments st) (userId st)
      (AwaitUploads files (pendings (length (requests st)) files) :: tasks st)
      (timers st) (trace st ++ upload_requests (userId st) files).
Proof.
  intros Hne. unfold handle, dispatch. rewrite onDrop_unfold. cbv zeta.
  destruct files as [|f files]; [contradiction |]. reflexivity.
Qed.

Lemma join_occurs (sep x : Js.str) (l : list Js.str) :
  In x l -> Js.occurs_in x (Js.join sep l).
Proof.
  induction l as [|y l IH]; [intros [] |].
  intros [-> | Hin].
  - destruct l as [|z l].
    + exists [], []. cbn. rewrite app_nil_r. reflexivity.
    + exists [], (sep ++ Js.join sep (z :: l)). reflexivity.
  - destruct l as [|z l]; [destruct Hin |].
    destruct (IH Hin) as [pre [post Heq]].
    exists (y ++ sep ++ pre), post.
    change (Js.join sep (y :: z :: l)) with (y ++ sep ++ Js.join sep (z :: l)).
    rewrite Heq, <- !app_assoc. reflexivity.
Qed.

Lemma uploaded_text_names (files : list File) (f : File) :
  In f files -> Js.occurs_in (file_name f) (uploaded_text files).
Proof.
  intros Hin.
  destruct (join_occurs (Js.lit ", ") (file_name f) (map file_name files)
              (in_map file_name files f Hin)) as [pre [post Heq]].
  unfold uploaded_text. rewrite Heq.
  exists ([55357; 56516]%N ++ Js.lit " Uploaded "
          ++ Js.of_nat (length files) ++ Js.lit " file(s): " ++ pre),
         (post ++ Js.lit ". Processing in background...").
  rewrite <- !app_assoc. reflexivity.
Qed.

Lemma optimistic_records_shape (files : list File)
    (resp : nat -> option Js.str) :
  length (optimistic_records files resp) = length files
  /\ Forall (fun d => status d = Some (Js.lit "processing"))
       (optimistic_records files resp)
  /\ (forall i, i < length files ->
        exists f, nth_error files i = Some f
                  /\ nth_error (optimistic_records files resp) i
                     = Some (mkDocument (resp i) None (Some (file_name f)) None
                               (Some (file_size f)) (Some (file_type f))
                               (Some (Js.lit "processing")) None)).
Proof.
  unfold optimistic_records. split; [| split].
  - rewrite length_map, length_combine, length_seq. lia.
  - apply Forall_forall. intros d Hd. apply in_map_iff in Hd.
    destruct Hd as [p [<- _]]. reflexivity.
  - intros i Hi. destruct (nth_error files i) as [f|] eqn:Hn.
    + exists f. split; [reflexivity |].
      rewrite nth_error_map.
      rewrite (nth_error_zip _ _ (seq 0 (length files)) files i i f);
        [reflexivity | | exact Hn].
      rewrite nth_error_nth' with (d := 0) by (rewrite length_seq; exact Hi).
      rewrite seq_nth by exact Hi. reflexivity.
    + apply nth_error_None in Hn. lia.
Qed.

Lemma timerFired_requests (i : nat) (d : Z) (s : State) :
  nth_error (timers s) i = Some d ->
  requests (handle (TimerFired i) s)
  = requests s ++ [GetDocuments (userId s)].
Proof.
  intros H. unfold handle, exec, dispatch, timerFired, bind, get. cbn.
  rewrite H. unfold requests. cbn. rewrite requests_of_app. reflexivity.
Qed.

(** C4: for a non-empty batch whose requests are all fulfilled, in whatever
    order the responses arrive, the upload issues one request per file;
    until the last response nothing else changes; with the last response it
    appends one optimistic record per file, in file order, each with status
    "processing" and the response's [filename] as [id], appends one system
    entry whose text contains every file name, and schedules one
    [loadUserDocuments] after 2000 ms. *)
Theorem C4_upload_success (now : Z) (st : State) (files : list File)
    (order : list nat) (resp : nat -> option Js.str) (clock : nat -> Z)
    (Hne : files <> [])
    (Horder : Permutation order (seq 0 (length files))) :
  let base := length (requests st) in
  let st1 := handle (FilesDropped files now) st in
  let st2 := run (map (fulfilment base resp clock) order) st1 in
  requests st1 = requests st ++ map (fun f => PostUpload f (userId st)) files
  /\ (exists early last,
        order = early ++ [last]
        /\ messages (run (map (fulfilment base resp clock) early) st1)
           = messages st
        /\ uploadedDocuments (run (map (fulfilment base resp clock) early) st1)
           = uploadedDocuments st
        /\ timers (run (map (fulfilment base resp clock) early) st1)
           = timers st
        /\ messages st2
           = messages st ++ [systemMessage (clock last) (uploaded_text files)]
        /\ trace st2
           = trace st ++ upload_requests (userId st) files
             ++ map (fun i => Settled (base + i)) order
             ++ [Appended (systemMessage (clock last) (uploaded_text files))])
  /\ uploadedDocuments st2
     = uploadedDocuments st ++ optimistic_records files resp
  /\ length (optimistic_records files resp) = length files
  /\ Forall (fun d => status d = Some (Js.lit "processing"))
       (optimistic_records files resp)
  /\ (forall i, i < length files ->
        exists f, nth_error files i = Some f
                  /\ nth_error (optimistic_records files resp) i
                     = Some (mkDocument (resp i) None (Some (file_name f)) None
                               (Some (file_size f)) (Some (file_type f))
                               (Some (Js.lit "processing")) None))
  /\ (forall f, In f files -> Js.occurs_in (file_name f) (uploaded_text files))
  /\ timers st2 = timers st ++ [2000%Z]
  /\ requests (handle (TimerFired (length (timers st))) st2)
     = requests st2 ++ [GetDocuments (userId st)]
  /\ isUploading st2 = false
  /\ tasks st2 = tasks st.
Proof.
  intros base st1 st2.
  pose proof (optimistic_records_shape files resp) as [Hlen [Hstatus Hnth]].
  assert (Hst1 : st1 = handle (FilesDropped files now) st) by reflexivity.
  rewrite (onDrop_parks files now st Hne) in Hst1.
  assert (Hnd : NoDup order)
    by (apply (Permutation_NoDup (Permutation_sym Horder)), seq_NoDup).
  assert (Hlt : forall i, In i order -> i < length files).
  { intros i Hi. apply (Permutation_in _ Horder) in Hi.
    apply in_seq in Hi. lia. }
  assert (Hcov : forall i, i < length files -> In i order).
  { intros i Hi. apply (Permutation_in _ (Permutation_sym Horder)).
    apply in_seq. lia. }
  assert (Hnonempty : order <> []).
  { destruct files as [|f files]; [contradiction |].
    intros ->. apply (Hcov 0). cbn. lia. }
  destruct (exists_last Hnonempty) as [early [last Hsplit]].
  rewrite Hsplit in Hnd.
  pose proof (NoDup_remove_1 _ _ _ Hnd) as Hnd'.
  pose proof (NoDup_remove_2 _ _ _ Hnd) as Hlast.
  rewrite app_nil_r in Hnd', Hlast.
  assert (Hlastlt : last < length files)
    by (apply Hlt; rewrite Hsplit; apply in_or_app; right; left; reflexivity).
  assert (Ht1 : tasks st1
                = AwaitUploads files (promises_after base files resp [])
                    :: tasks st).
  { rewrite Hst1. cbn. rewrite <- pendings_promises_after. reflexivity. }
  destruct (batch_progress base files resp clock (tasks st) early [] st1 Ht1
              Hnd') as [Ht2 [Hsame Htr]].
  { intros i Hi. split; [| intros []].
    apply Hlt. rewrite Hsplit. apply in_or_app. left. exact Hi. }
  { exists last. split; [exact Hlastlt | split; [intros [] | exact Hlast]]. }
  set (s := run (map (fulfilment base resp clock) early) st1) in *.
  assert (Hst2 : st2 = handle (fulfilment base resp clock last) s).
  { unfold st2, s. rewrite Hsplit, map_app, run_app. reflexivity. }
  assert (Hnot : ~ In last (rev early ++ [])).
  { rewrite app_nil_r. intros H. apply Hlast. apply in_rev. exact H. }
  unfold fulfilment in Hst2.
  rewrite (uploadSettles_last files _ (tasks st) (base + last) (resp last)
             (clock last) s (optimistic_records files resp) Ht2
             (pending_after base files resp _ last Hlastlt Hnot)) in Hst2.
  2:{ rewrite settle_promises_after. apply promise_all_after_all.
      intros i Hi. specialize (Hcov i Hi). rewrite Hsplit in Hcov.
      apply in_app_or in Hcov. destruct Hcov as [H | [<- | []]].
      - right. apply in_or_app. left. apply in_rev in H. exact H.
      - left. reflexivity. }
  destruct Hsame as [Hm [Hd [Hs [Htm [Hu [Hid Hrq]]]]]].
  assert (Hm1 : messages st1 = messages st) by (rewrite Hst1; reflexivity).
  assert (Hd1 : uploadedDocuments st1 = uploadedDocuments st)
    by (rewrite Hst1; reflexivity).
  assert (Htm1 : timers st1 = timers st) by (rewrite Hst1; reflexivity).
  assert (Hid1 : userId st1 = userId st) by (rewrite Hst1; reflexivity).
  assert (Htr1 : trace st1 = trace st ++ upload_requests (userId st) files)
    by (rewrite Hst1; reflexivity).
  assert (Htimers : timers st2 = timers st ++ [2000%Z]).
  { rewrite Hst2. cbn. rewrite Htm, Htm1. reflexivity. }
  split; [| split; [| split; [| split; [| split; [| split; [| split;
    [| split; [| split; [| split]]]]]]]]].
  - rewrite Hst1. unfold requests; cbn.
    rewrite requests_of_app, requests_of_upload_requests. reflexivity.
  - exists early, last. fold s. split; [exact Hsplit |].
    split; [rewrite Hm; exact Hm1 |].
    split; [rewrite Hd; exact Hd1 |].
    split; [rewrite Htm; exact Htm1 |].
    split.
    + rewrite Hst2. cbn. rewrite Hm, Hm1. reflexivity.
    + rewrite Hst2. cbn. rewrite Htr, Htr1, Hsplit, map_app.
      rewrite <- !app_assoc. reflexivity.
  - rewrite Hst2. cbn. rewrite Hd, Hd1. reflexivity.
  - exact Hlen.
  - exact Hstatus.
  - exact Hnth.
  - apply uploaded_text_names.
  - exact Htimers.
  - rewrite (timerFired_requests (length (timers st)) 2000%Z st2).
    + rewrite Hst2. cbn. rewrite Hid, Hid1. reflexivity.
    + rewrite Htimers. rewrite nth_error_app2 by lia.
      rewrite Nat.sub_diag. reflexivity.
  - rewrite Hst2. reflexivity.
  - rewrite Hst2. reflexivity.
Qed.

Lemma C4_upload_success_witness :
  [file_a; file_b] <> []
  /\ Permutation [1; 0] (seq 0 (length [file_a; file_b]))
  /\ uploadedDocuments
       (run (map (fulfilment (length (requests (init 0))) sample_resp
                    sample_clock) [1; 0])
          (handle (FilesDropped [file_a; file_b] 1000) (init 0)))
     = uploadedDocuments (init 0)
       ++ optimistic_records [file_a; file_b] sample_resp.
Proof.
  assert (Hne : [file_a; file_b] <> []) by discriminate.
  assert (Hperm : Permutation [1; 0] (seq 0 (length [file_a; file_b])))
    by (simpl; apply perm_swap).
  split; [exact Hne | split; [exact Hperm |]].
  exact (proj1 (proj2 (proj2 (C4_upload_success 1000 (init 0)
                                [file_a; file_b] [1; 0] sample_resp
                                sample_clock Hne Hperm)))).
Defined.

Lemma bounded_orphan (st : State) (k : nat) (t : Task) :
  uploads_bounded st -> In t (tasks st) ->
  awaits_upload (length (requests st) + k) t = false.
Proof.
  intros Hb Hin. destruct t as [r | files ps | r | r]; try reflexivity.
  cbn. destruct (existsb _ ps) eqn:He; [| reflexivity].
  apply existsb_exists in He. destruct He as [[f rid | d] [Hp Hr]];
    [| discriminate].
  cbn in Hr. apply Nat.eqb_eq in Hr. subst rid.
  specialize (Hb files ps f _ Hin Hp). lia.
Qed.

(** C2 (as the code has it): the requests of a batch go out together; as
    long as they are fulfilled nothing is reported; the first request that
    fails, whichever file it belongs to and however many are still pending,
    makes the batch report failure at once: one system entry with the
    backend's detail or the transport message, no document record, no
    refresh scheduled, the batch over.  Responses that arrive for the batch
    afterwards change nothing. *)
Theorem C2_upload_failure (now : Z) (st : State) (files : list File)
    (early : list nat) (j : nat) (resp : nat -> option Js.str)
    (clock : nat -> Z) (e : AxiosError)
    (k : nat) (o : Outcome (option Js.str)) (t : Z)
    (Hbound : uploads_bounded st)
    (Hnd : NoDup (j :: early))
    (Hlt : Forall (fun i => i < length files) (j :: early)) :
  let base := length (requests st) in
  let st1 := handle (FilesDropped files now) st in
  let st2 := run (map (fulfilment base resp clock) early) st1 in
  let st3 := handle (UploadSettles (base + j) (Rejected e) (clock j)) st2 in
  let st4 := handle (UploadSettles (base + k) o t) st3 in
  requests st1 = requests st ++ map (fun f => PostUpload f (userId st)) files
  /\ (messages st2 = messages st
      /\ uploadedDocuments st2 = uploadedDocuments st)
  /\ messages st3
     = messages st ++ [systemMessage (clock j) (upload_error_text e)]
  /\ upload_error_text e
     = [10060]%N ++ Js.lit " Error uploading files: " ++ error_text e
  /\ uploadedDocuments st3 = uploadedDocuments st
  /\ timers st3 = timers st
  /\ isUploading st3 = false
  /\ tasks st3 = tasks st
  /\ trace st3
     = trace st ++ upload_requests (userId st) files
       ++ map (fun i => Settled (base + i)) early
       ++ [Settled (base + j);
           Appended (systemMessage (clock j) (upload_error_text e))]
  /\ (messages st4 = messages st3
      /\ uploadedDocuments st4 = uploadedDocuments st3
      /\ timers st4 = timers st3
      /\ tasks st4 = tasks st3).
Proof.
  intros base st1 st2 st3 st4.
  inversion Hnd as [|? ? Hj Hnd']; subst.
  inversion Hlt as [|? ? Hjlt Hlt']; subst.
  assert (Hne : files <> []) by (intros ->; cbn in Hjlt; lia).
  assert (Hst1 : st1 = handle (FilesDropped files now) st) by reflexivity.
  rewrite (onDrop_parks files now st Hne) in Hst1.
  assert (Ht1 : tasks st1
                = AwaitUploads files (promises_after base files resp [])
                    :: tasks st).
  { rewrite Hst1. cbn. rewrite <- pendings_promises_after. reflexivity. }
  destruct (batch_progress base files resp clock (tasks st) early [] st1 Ht1
              Hnd') as [Ht2 [Hsame Htr]].
  { intros i Hi. split; [| intros []].
    apply (proj1 (Forall_forall _ _) Hlt' i Hi). }
  { exists j. split; [exact Hjlt | split; [intros [] | exact Hj]]. }
  fold st2 in Ht2, Hsame, Htr.
  assert (Hnot : ~ In j (rev early ++ [])).
  { rewrite app_nil_r. intros H. apply Hj. apply in_rev. exact H. }
  assert (Hst3 : st3 = handle (UploadSettles (base + j) (Rejected e) (clock j))
                         st2) by reflexivity.
  rewrite (uploadSettles_rejected files _ (tasks st) (base + j) e (clock j)
             st2 Ht2 (pending_after base files resp _ j Hjlt Hnot)) in Hst3.
  destruct Hsame as [Hm [Hd [Hs [Htm [Hu [Hid Hrq]]]]]].
  assert (Hm1 : messages st1 = messages st) by (rewrite Hst1; reflexivity).
  assert (Hd1 : uploadedDocuments st1 = uploadedDocuments st)
    by (rewrite Hst1; reflexivity).
  assert (Htm1 : timers st1 = timers st) by (rewrite Hst1; reflexivity).
  assert (Htr1 : trace st1 = trace st ++ upload_requests (userId st) files)
    by (rewrite Hst1; reflexivity).
  assert (Hreq1 : requests st1
                  = requests st ++ map (fun f => PostUpload f (userId st)) files).
  { rewrite Hst1. unfold requests; cbn.
    rewrite requests_of_app, requests_of_upload_requests. reflexivity. }
  assert (Htasks3 : tasks st3 = tasks st) by (rewrite Hst3; reflexivity).
  assert (Hst4 : st4 = add_trace [Settled (base + k)] st3).
  { apply uploadSettles_orphan. intros u Hu'. rewrite Htasks3 in Hu'.
    apply (bounded_orphan st k u Hbound Hu'). }
  split; [exact Hreq1 |].
  split; [split; [rewrite Hm; exact Hm1 | rewrite Hd; exact Hd1] |].
  split; [rewrite Hst3; cbn; rewrite Hm, Hm1; reflexivity |].
  split; [reflexivity |].
  split; [rewrite Hst3; cbn; rewrite Hd, Hd1; reflexivity |].
  split; [rewrite Hst3; cbn; rewrite Htm, Htm1; reflexivity |].
  split; [rewrite Hst3; reflexivity |].
  split; [exact Htasks3 |].
  split.
  - rewrite Hst3. cbn. rewrite Htr, Htr1, <- !app_assoc. reflexivity.
  - rewrite Hst4. repeat split.
Qed.

Lemma C2_upload_failure_witness :
  uploads_bounded (init 0)
  /\ NoDup [0; 1]
  /\ Forall (fun i => i < length [file_a; file_b]) [0; 1]
  /\ messages
       (handle (UploadSettles (length (requests (init 0)) + 0)
                  (Rejected backend_error) (sample_clock 0))
          (run (map (fulfilment (length (requests (init 0))) sample_resp
                       sample_clock) [1])
             (handle (FilesDropped [file_a; file_b] 1000) (init 0))))
     = messages (init 0)
       ++ [systemMessage (sample_clock 0) (upload_error_text backend_error)].
Proof.
  assert (Hb : uploads_bounded (init 0)) by (intros files ps f rid []).
  assert (Hnd : NoDup [0; 1]).
  { repeat constructor; simpl; intuition discriminate. }
  assert (Hlt : Forall (fun i => i < length [file_a; file_b]) [0; 1]).
  { repeat constructor. }
  split; [exact Hb | split; [exact Hnd | split; [exact Hlt |]]].
  exact (proj1 (proj2 (proj2 (C2_upload_failure 1000 (init 0)
                                [file_a; file_b] [1] 0 sample_resp
                                sample_clock backend_error 1
                                (Fulfilled (Some (Js.lit "b.txt"))) 1600
                                Hb Hnd Hlt)))).
Defined.

(** C2 as stated fails on the join: with two files, when the request of the
    first file fails while the request of the second is still in flight,
    the batch has already reported failure and is over. *)
Lemma C2_failure_reported_while_in_flight :
  let st := run [FilesDropped [file_a; file_b] 1000;
                 UploadSettles 0 (Rejected network_error) 1500] (init 0) in
  requests st
  = [PostUpload file_a (userId st); PostUpload file_b (userId st)]
  /\ messages st = [systemMessage 1500 (upload_error_text network_error)]
  /\ isUploading st = false
  /\ tasks st = []
  /\ in_flight st 1.
Proof.
  cbv zeta. repeat split.
  - cbn. lia.
  - cbn. intros [H | []]. discriminate H.
Qed.

(** ** The scenarios of the specification *)

(** Two files are uploaded; the refresh then brings the backend's records,
    which replace the optimistic ones. *)
Example upload_then_refresh :
  let st := run [FilesDropped [file_a; file_b] 1000;
                 UploadSettles 0 (Fulfilled (Some (Js.lit "a.pdf"))) 1400;
                 UploadSettles 1 (Fulfilled (Some (Js.lit "b.txt"))) 1500]
              (init 0) in
  map name (uploadedDocuments st)
  = [Some (Js.lit "a.pdf"); Some (Js.lit "b.txt")]
  /\ map status (uploadedDocuments st)
     = [Some (Js.lit "processing"); Some (Js.lit "processing")]
  /\ uploadedDocuments
       (run [TimerFired 0;
             ListSettles 2 (Fulfilled (Some [listed_a; listed_b]))] st)
     = [listed_a; listed_b].
Proof. repeat split. Qed.

(** With a document selected, a question and its answer give a user entry
    followed by an ai entry with one citation. *)
Example question_and_answer :
  messages (run [SendClicked 7; QuerySettles 0 (Fulfilled sample_answer) 8]
              ready_state)
  = [mkMessage 7 user (Js.lit "What is the summary?") None;
     mkMessage 9 ai (Js.lit "It is a report.") (Some [sample_source])].
Proof. reflexivity. Qed.

(** Select-all followed by deselect-all leaves the selection empty. *)
Example select_all_then_clear (st : State) :
  selectedDocuments (exec deselectAllDocuments (exec selectAllDocuments st))
  = [].
Proof. reflexivity. Qed.

(** * Further properties of the component *)

(** ** Dropping nothing *)

(** X1: [onDrop] with no accepted file issues no request and adds no
    document, and still appends the system entry "Uploaded 0 file(s): ."
    and schedules a refresh. *)
Theorem X1_empty_drop (now : Z) (st : State) :
  let st' := handle (FilesDropped [] now) st in
  requests st' = requests st
  /\ tasks st' = tasks st
  /\ uploadedDocuments st' = uploadedDocuments st
  /\ selectedDocuments st' = selectedDocuments st
  /\ messages st'
     = messages st
       ++ [mkMessage now system
             ([55357; 56516]%N
              ++ Js.lit " Uploaded 0 file(s): . Processing in background...")
             None]
  /\ timers st' = timers st ++ [2000%Z]
  /\ isUploading st' = false.
Proof.
  unfold handle, dispatch. rewrite onDrop_unfold. cbv zeta.
  unfold requests. cbn. rewrite !requests_of_app. cbn.
  rewrite !app_nil_r. repeat split.
Qed.

(** ** Enter and the Send button *)

Lemma sendMessage_blank (now : Z) (st : State) :
  question_blank st = true -> exec (sendMessage now) st = st.
Proof.
  unfold question_blank, sendMessage, exec, bind, get. cbn.
  intros ->. reflexivity.
Qed.

(** X2: in every state, Enter without Shift does exactly what a click on
    Send does; any other key, and Enter with Shift, changes nothing. *)
Theorem X2_enter_is_send (key : Js.str) (shiftKey : bool) (now : Z)
    (st : State) :
  handle (KeyPressed key shiftKey now) st
  = if Js.eqb key (Js.lit "Enter") && negb shiftKey
    then handle (SendClicked now) st
    else st.
Proof.
  unfold handle, exec, dispatch, handleKeyPress, bind, get. cbn.
  unfold textareaDisabled, sendDisabled.
  destruct (Js.eqb key (Js.lit "Enter") && negb shiftKey).
  - fold (question_blank st).
    destruct (length (uploadedDocuments st) =? 0); cbn;
      [rewrite orb_true_r; reflexivity |].
    destruct (isLoading st); cbn; [rewrite orb_true_r; reflexivity |].
    rewrite !orb_false_r.
    destruct (question_blank st) eqn:Hb; [| reflexivity].
    apply (sendMessage_blank now st Hb).
  - destruct (_ || _); reflexivity.
Qed.

(** ** The guard that the rendered controls never reach *)

#[local] Instance grows_unprompted_preorder : PreOrder grows_unprompted.
Proof.
  split.
  - intros st. exists []. rewrite app_nil_r. split; [reflexivity | constructor].
  - intros a b c [n1 [H1 F1]] [n2 [H2 F2]]. exists (n1 ++ n2).
    rewrite H2, H1, <- app_assoc. split; [reflexivity |].
    apply Forall_app. split; assumption.
Qed.

Lemma unprompted_same {A} (m : M A) :
  (forall st, messages (snd (m st)) = messages st) ->
  respects grows_unprompted m.
Proof.
  intros H st. exists []. rewrite H, app_nil_r.
  split; [reflexivity | constructor].
Qed.

Lemma unprompted_append (m : Message) :
  no_upload_prompt m -> respects grows_unprompted (appendMessage m).
Proof.
  intros Hm st. exists [m]. split; [reflexivity |].
  constructor; [exact Hm | constructor].
Qed.

Lemma text_differs_at (i : nat) (a b : Js.str) :
  nth i a 0%N <> nth i b 0%N -> a <> b.
Proof. intros H ->. apply H. reflexivity. Qed.

Lemma uploaded_text_not_prompt (files : list File) :
  uploaded_text files <> please_upload.
Proof. apply (text_differs_at 3). vm_compute. discriminate. Qed.

Lemma upload_error_not_prompt (e : AxiosError) :
  upload_error_text e <> please_upload.
Proof. apply (text_differs_at 0). vm_compute. discriminate. Qed.

Lemma query_error_not_prompt (e : AxiosError) :
  query_error_text e <> please_upload.
Proof. apply (text_differs_at 0). vm_compute. discriminate. Qed.

Lemma delete_error_not_prompt (e : AxiosError) :
  delete_error_text e <> please_upload.
Proof. apply (text_differs_at 0). vm_compute. discriminate. Qed.

Lemma system_unprompted (now : Z) (text : Js.str) :
  text <> please_upload -> no_upload_prompt (systemMessage now text).
Proof. intros H [_ Hc]. apply H. exact Hc. Qed.

Lemma sendMessage_unprompted (now : Z) (st : State) :
  no_documents st = false ->
  grows_unprompted st (exec (sendMessage now) st).
Proof.
  unfold no_documents, sendMessage, exec, bind, get. cbn. intros ->.
  destruct (negb (Js.truthy (Js.trim (inputMessage st)))); cbn.
  - reflexivity.
  - destruct (length (selectedDocuments st) =? 0); cbn.
    + eexists [_]. split; [reflexivity |].
      constructor; [| constructor]. apply system_unprompted.
      apply (text_differs_at 1). vm_compute. discriminate.
    + eexists [_]. split; [reflexivity |].
      constructor; [| constructor]. intros [Ht _]. discriminate Ht.
Qed.

Ltac unprompted_prim :=
  match goal with
  | |- respects _ (appendMessage (aiMessage _ _)) =>
      apply unprompted_append; intros [Ht _]; discriminate Ht
  | |- respects _ (appendMessage (systemMessage _ (uploaded_text _))) =>
      apply unprompted_append, system_unprompted, uploaded_text_not_prompt
  | |- respects _ (appendMessage (systemMessage _ (upload_error_text _))) =>
      apply unprompted_append, system_unprompted, upload_error_not_prompt
  | |- respects _ (appendMessage (systemMessage _ (query_error_text _))) =>
      apply unprompted_append, system_unprompted, query_error_not_prompt
  | |- respects _ (appendMessage (systemMessage _ (delete_error_text _))) =>
      apply unprompted_append, system_unprompted, delete_error_not_prompt
  | |- respects _ (appendMessage (systemMessage _ deleted_text)) =>
      apply unprompted_append, system_unprompted;
      apply (text_differs_at 1); vm_compute; discriminate
  | |- respects _ (appendMessage _) => fail 1
  | |- respects _ (sendMessage _) => fail 1
  | |- respects _ (emit _) => apply unprompted_same; intros ?; reflexivity
  | _ => frame_prim unprompted_same; intros ?; reflexivity
  end.

Lemma unprompted_dispatch (ev : Event) :
  respects grows_unprompted (dispatch ev).
Proof.
  destruct ev; try solve [respects_walk ltac:(idtac; unprompted_prim)].
  - (* KeyPressed *)
    intros st. change (grows_unprompted st (handle (KeyPressed key shiftKey now) st)).
    unfold handle, exec, dispatch, handleKeyPress, bind, get. cbn.
    unfold textareaDisabled.
    destruct (length (uploadedDocuments st) =? 0) eqn:Hd; cbn;
      [reflexivity |].
    destruct (isLoading st); cbn; [reflexivity |].
    destruct (_ && _); [| reflexivity].
    apply (sendMessage_unprompted now st Hd).
  - (* SendClicked *)
    intros st. unfold dispatch, bind, get. cbn. unfold sendDisabled.
    destruct (length (uploadedDocuments st) =? 0) eqn:Hd; cbn.
    + rewrite orb_true_r. cbn. reflexivity.
    + destruct (_ || _); [reflexivity |].
      apply (sendMessage_unprompted now st Hd).
Qed.

(** X3: through the rendered controls the "please upload" entry of
    [sendMessage] is never appended: with an empty document list the
    textarea and the Send button are disabled, so whatever events arrive
    in whatever state, none of the entries added is that system entry. *)
Theorem X3_upload_prompt_unreachable (evs : list Event) (st : State) :
  exists new,
    messages (run evs st) = messages st ++ new
    /\ Forall (fun m => ~ (msg_type m = system /\ content m = please_upload))
         new.
Proof.
  exact (respects_run grows_unprompted evs unprompted_dispatch st).
Qed.

(** ** Blank questions *)

Lemma trimStart_nil (s : Js.str) :
  Js.trimStart s = [] <-> forallb Js.is_space s = true.
Proof.
  induction s as [|c s IH]; simpl; [split; reflexivity |].
  destruct (Js.is_space c); simpl; [exact IH | split; discriminate].
Qed.

Lemma trimStart_split (s : Js.str) :
  exists pre, s = pre ++ Js.trimStart s /\ forallb Js.is_space pre = true.
Proof.
  induction s as [|c s [pre [Hs Hp]]]; simpl.
  - exists []. split; reflexivity.
  - destruct (Js.is_space c) eqn:Hc.
    + exists (c :: pre). simpl. rewrite Hc, Hp, <- Hs. split; reflexivity.
    + exists []. split; reflexivity.
Qed.

Lemma trimStart_head (s : Js.str) (c : N) (r : Js.str) :
  Js.trimStart s = c :: r -> Js.is_space c = false.
Proof.
  induction s as [|d s IH]; simpl; [discriminate |].
  destruct (Js.is_space d) eqn:Hd; [exact IH |].
  intros H. injection H as <- _. exact Hd.
Qed.

Lemma trimStart_snoc (s : Js.str) (c : N) :
  Js.is_space c = false -> Js.trimStart (s ++ [c]) = Js.trimStart s ++ [c].
Proof.
  intros Hc. induction s as [|d s IH]; simpl.
  - rewrite Hc. reflexivity.
  - destruct (Js.is_space d); [exact IH | reflexivity].
Qed.

Lemma forallb_rev (A : Type) (p : A -> bool) (l : list A) :
  forallb p (rev l) = forallb p l.
Proof.
  induction l as [|x l IH]; simpl; [reflexivity |].
  rewrite forallb_app, IH. simpl. rewrite andb_true_r. apply andb_comm.
Qed.

Lemma trim_blank (s : Js.str) :
  negb (Js.truthy (Js.trim s)) = forallb Js.is_space s.
Proof.
  unfold Js.trim, Js.trimEnd.
  destruct (Js.trimStart s) as [|c t] eqn:Ht.
  - simpl. symmetry. apply trimStart_nil. exact Ht.
  - pose proof (trimStart_head s c t Ht) as Hc.
    simpl rev. rewrite (trimStart_snoc (rev t) c Hc), rev_app_distr. simpl.
    symmetry. destruct (forallb Js.is_space s) eqn:Hs; [| reflexivity].
    apply trimStart_nil in Hs. congruence.
Qed.

Lemma trim_split (s : Js.str) :
  exists pre post,
    s = pre ++ Js.trim s ++ post
    /\ forallb Js.is_space pre = true /\ forallb Js.is_space post = true.
Proof.
  destruct (trimStart_split s) as [pre [Hs Hpre]].
  destruct (trimStart_split (rev (Js.trimStart s))) as [q [Hq Hpost]].
  exists pre, (rev q). split; [| split; [exact Hpre |]].
  - unfold Js.trim, Js.trimEnd. rewrite <- rev_app_distr, <- Hq.
    rewrite rev_involutive. exact Hs.
  - rewrite forallb_rev. exact Hpost.
Qed.

Lemma trim_ends (s : Js.str) :
  match Js.trim s with c :: _ => Js.is_space c = false | [] => True end
  /\ match rev (Js.trim s) with c :: _ => Js.is_space c = false | [] => True end.
Proof.
  unfold Js.trim, Js.trimEnd. rewrite rev_involutive.
  destruct (Js.trimStart s) as [|c t] eqn:Ht; [split; exact I |].
  pose proof (trimStart_head s c t Ht) as Hc.
  simpl rev. rewrite (trimStart_snoc (rev t) c Hc), rev_app_distr. simpl.
  split; [exact Hc |].
  destruct (Js.trimStart (rev t)) as [|d u] eqn:Hu; simpl; [exact Hc |].
  apply (trimStart_head (rev t) d u Hu).
Qed.

(** X4: the question counts as blank (Send disabled, [sendMessage] silent)
    exactly when every code unit of the input is whitespace; what [trim]
    leaves is the input without a run of whitespace at each end, and it
    neither starts nor ends with whitespace. *)
Theorem X4_blank_is_all_whitespace (st : State) :
  question_blank st = forallb Js.is_space (inputMessage st)
  /\ sendDisabled st
     = forallb Js.is_space (inputMessage st)
       || (length (uploadedDocuments st) =? 0) || isLoading st
  /\ (exists pre post,
        inputMessage st = pre ++ Js.trim (inputMessage st) ++ post
        /\ forallb Js.is_space pre = true /\ forallb Js.is_space post = true)
  /\ match Js.trim (inputMessage st) with
     | c :: _ => Js.is_space c = false
     | [] => True
     end
  /\ match rev (Js.trim (inputMessage st)) with
     | c :: _ => Js.is_space c = false
     | [] => True
     end.
Proof.
  split; [apply trim_blank |].
  split; [unfold sendDisabled; rewrite trim_blank; reflexivity |].
  split; [apply trim_split |]. apply trim_ends.
Qed.

(** ** Toggling a selection without duplicates *)

Lemma filter_out_absent (d : Js.str) (l : list Js.str) :
  ~ In d l -> filter (fun x => negb (Js.eqb x d)) l = l.
Proof.
  induction l as [|y l IH]; simpl; [reflexivity |].
  intros H. destruct (Js.eqb y d) eqn:He.
  - apply Js_eqb_eq in He. subst. exfalso. apply H. left. reflexivity.
  - simpl. rewrite IH; [reflexivity |]. intros Hin. apply H. right. exact Hin.
Qed.

Lemma filter_out_once (d : Js.str) (l : list Js.str) :
  NoDup l -> In d l ->
  S (length (filter (fun x => negb (Js.eqb x d)) l)) = length l.
Proof.
  induction l as [|y l IH]; simpl; [intros _ [] |].
  intros Hnd Hin. inversion Hnd as [|? ? Hy Hnd']; subst.
  destruct (Js.eqb y d) eqn:He; simpl.
  - apply Js_eqb_eq in He. subst. rewrite (filter_out_absent d l Hy).
    reflexivity.
  - apply Js_eqb_neq in He. destruct Hin as [-> | Hin]; [congruence |].
    rewrite (IH Hnd' Hin). reflexivity.
Qed.

(** X5: on a selection without duplicates a toggle keeps it without
    duplicates and changes its size by exactly one: one more when the
    identifier was absent, one less when it was present. *)
Theorem X5_toggle_duplicate_free (docId : Js.str) (st : State)
    (Hnd : NoDup (selectedDocuments st)) :
  let st' := exec (toggleDocumentSelection docId) st in
  NoDup (selectedDocuments st')
  /\ (if includes (selectedDocuments st) docId
      then S (length (selectedDocuments st')) = length (selectedDocuments st)
      else length (selectedDocuments st') = S (length (selectedDocuments st))).
Proof.
  cbn. unfold toggle. destruct (includes (selectedDocuments st) docId) eqn:Hi.
  - apply includes_In in Hi. split.
    + apply NoDup_filter. exact Hnd.
    + apply filter_out_once; assumption.
  - apply includes_not_In in Hi. split.
    + apply NoDup_app; [exact Hnd | repeat constructor; intros [] |].
      intros x Hx [<- | []]. contradiction.
    + rewrite length_app. simpl. lia.
Qed.

Lemma X5_toggle_duplicate_free_witness :
  NoDup (selectedDocuments ready_state)
  /\ NoDup (selectedDocuments
              (exec (toggleDocumentSelection (Js.lit "a.pdf")) ready_state))
  /\ S (length (selectedDocuments
                  (exec (toggleDocumentSelection (Js.lit "a.pdf")) ready_state)))
     = length (selectedDocuments ready_state).
Proof.
  assert (H : NoDup (selectedDocuments ready_state))
    by (repeat constructor; intros []).
  split; [exact H |].
  exact (X5_toggle_duplicate_free (Js.lit "a.pdf") ready_state H).
Defined.

(** ** Which cards are shown selected *)

Lemma includes_toggle (d x : Js.str) (l : list Js.str) :
  includes (toggle d l) x
  = if Js.eqb x d then negb (includes l d) else includes l x.
Proof.
  pose proof (In_toggle d l x) as H.
  destruct (Js.eqb x d) eqn:He.
  - apply Js_eqb_eq in He. subst x.
    destruct (includes l d) eqn:Hl; simpl.
    + apply includes_In in Hl. apply includes_not_In. intros Hin.
      apply H in Hin. destruct Hin as [[_ Hn] | [Hn _]]; [| apply Hn; reflexivity].
      contradiction.
    + apply includes_not_In in Hl. apply includes_In. apply H.
      left. split; [reflexivity | exact Hl].
  - apply Js_eqb_neq in He.
    destruct (includes l x) eqn:Hl.
    + apply includes_In in Hl. apply includes_In. apply H.
      right. split; assumption.
    + apply includes_not_In in Hl. apply includes_not_In. intros Hin.
      apply H in Hin. destruct Hin as [[Hx _] | [_ Hx]]; contradiction.
Qed.

Lemma filter_Boolean_In (x : Js.str) (l : list (option Js.str)) :
  In (Some x) l -> Js.truthy x = true -> In x (filter_Boolean l).
Proof.
  intros Hin Hx. induction l as [|[s|] l IH]; simpl; [destruct Hin | |].
  - destruct Hin as [H | Hin].
    + injection H as ->. rewrite Hx. left. reflexivity.
    + destruct (Js.truthy s); [right |]; apply IH; exact Hin.
  - destruct Hin as [H | Hin]; [discriminate | apply IH; exact Hin].
Qed.

(** X6: a click on a card with an identifier flips the highlight of every
    card that carries this identifier and of no other card, and a click on
    a card without identifier changes nothing; after select-all exactly the
    listed cards with an identifier are highlighted; after deselect-all
    none is. *)
Theorem X6_card_highlights (doc other : Document) (st : State) :
  isSelected (exec (cardClick doc) st) other
  = (if same_card doc other then negb (isSelected st other)
     else isSelected st other)
  /\ (has_id doc = false -> exec (cardClick doc) st = st)
  /\ Forall (fun d => isSelected (exec selectAllDocuments st) d = has_id d)
       (uploadedDocuments st)
  /\ isSelected (exec deselectAllDocuments st) other = false.
Proof.
  split; [| split; [| split]].
  - unfold cardClick, same_card, isSelected.
    destruct (docId_of doc) as [d|]; [| reflexivity].
    destruct (Js.truthy d) eqn:Hd; cbn -[toggle includes].
    + destruct (docId_of other) as [d'|]; [| reflexivity].
      destruct (Js.truthy d') eqn:Hd'.
      * rewrite includes_toggle.
        destruct (Js.eqb d' d) eqn:He; [| reflexivity].
        apply Js_eqb_eq in He. subst. reflexivity.
      * destruct d' as [|c' d'], d as [|c d]; try discriminate. reflexivity.
    + destruct (docId_of other) as [d'|]; reflexivity.
  - unfold has_id, cardClick. destruct (docId_of doc) as [d|]; [| reflexivity].
    intros ->. reflexivity.
  - apply Forall_forall. intros d Hin. unfold isSelected, has_id. cbn.
    destruct (docId_of d) as [x|] eqn:Hx; [| reflexivity].
    destruct (Js.truthy x) eqn:Ht; [| reflexivity].
    apply includes_In. apply filter_Boolean_In; [| exact Ht].
    rewrite <- Hx. apply in_map. exact Hin.
  - unfold isSelected. cbn.
    destruct (docId_of other) as [x|]; [| reflexivity].
    destruct (Js.truthy x); reflexivity.
Qed.

Lemma X6_card_highlights_witness :
  has_id (mkDocument None None (Some (Js.lit "x")) None None None None None)
  = false
  /\ exec (cardClick
             (mkDocument None None (Some (Js.lit "x")) None None None None None))
       ready_state
     = ready_state.
Proof.
  split; [reflexivity |].
  exact (proj1 (proj2 (X6_card_highlights
                         (mkDocument None None (Some (Js.lit "x")) None None
                            None None None)
                         listed_a ready_state)) eq_refl).
Defined.

Lemma length_filter_Boolean (l : list (option Js.str)) :
  length (filter_Boolean l) <= length l
  /\ (length (filter_Boolean l) = length l
      <-> forallb (fun o => match o with
                            | Some s => Js.truthy s
                            | None => false
                            end) l = true).
Proof.
  induction l as [|[s|] l [IH1 IH2]]; simpl.
  - split; [lia | split; reflexivity].
  - destruct (Js.truthy s); simpl.
    + split; [lia |]. rewrite <- IH2. split; lia.
    + split; [lia |]. split; [lia | discriminate].
  - split; [lia |]. split; [lia | discriminate].
Qed.

Lemma forallb_has_id (docs : list Document) :
  forallb (fun o => match o with
                    | Some s => Js.truthy s
                    | None => false
                    end) (map docId_of docs)
  = forallb has_id docs.
Proof. induction docs as [|d l IH]; simpl; [| rewrite IH]; reflexivity. Qed.

(** X7: after select-all the Select All button is disabled exactly when
    every listed document has an identifier; a listed document without one
    keeps the button enabled, and select-all then changes nothing more. *)
Theorem X7_select_all_button (st : State) :
  let st' := exec selectAllDocuments st in
  selectAllDisabled st' = forallb has_id (uploadedDocuments st)
  /\ exec selectAllDocuments st' = st'
  /\ length (selectedDocuments st') <= length (uploadedDocuments st).
Proof.
  cbn. unfold selectAllDisabled. cbn.
  pose proof (length_filter_Boolean (map docId_of (uploadedDocuments st)))
    as [Hle Hiff].
  rewrite length_map in Hle, Hiff.
  split; [| split; [reflexivity | exact Hle]].
  rewrite forallb_has_id in Hiff.
  destruct (forallb has_id (uploadedDocuments st)) eqn:Hf.
  - apply Nat.eqb_eq. apply Hiff. reflexivity.
  - apply Nat.eqb_neq. intros H. apply Hiff in H. discriminate H.
Qed.

(** ** What goes to the backend *)

#[local] Instance careful_preorder : PreOrder careful.
Proof.
  split.
  - intros st Hs. split; [exact Hs | split; [reflexivity |]].
    exists []. rewrite app_nil_r. split; [reflexivity | constructor].
  - intros a b c Hab Hbc Hs.
    destruct (Hab Hs) as [Hb [Hu [n1 [Hr1 F1]]]].
    destruct (Hbc Hb) as [Hc [Hu' [n2 [Hr2 F2]]]].
    split; [exact Hc | split; [congruence |]].
    exists (n1 ++ n2). rewrite Hr2, Hr1, <- app_assoc.
    split; [reflexivity |]. apply Forall_app. split; [exact F1 |].
    rewrite Hu in F2. exact F2.
Qed.

Lemma careful_same {A} (m : M A) :
  (forall st, selectedDocuments (snd (m st)) = selectedDocuments st
              /\ userId (snd (m st)) = userId st
              /\ requests (snd (m st)) = requests st) ->
  respects careful m.
Proof.
  intros H st Hs. destruct (H st) as [H1 [H2 H3]].
  unfold selection_usable. rewrite H1, H2, H3.
  split; [exact Hs | split; [reflexivity |]].
  exists []. rewrite app_nil_r. split; [reflexivity | constructor].
Qed.

Lemma careful_selection (f : list Js.str -> list Js.str) :
  (forall l, Forall (fun d => Js.truthy d = true) l ->
             Forall (fun d => Js.truthy d = true) (f l)) ->
  respects careful (setSelectedDocuments f).
Proof.
  intros Hf st Hs. split; [apply Hf; exact Hs | split; [reflexivity |]].
  exists []. rewrite app_nil_r. split; [reflexivity | constructor].
Qed.

Lemma careful_request (m : M unit) (r : State -> Request) :
  (forall st, selectedDocuments (exec m st) = selectedDocuments st
              /\ userId (exec m st) = userId st
              /\ requests (exec m st) = requests st ++ [r st]
              /\ request_user (r st) = userId st
              /\ (selection_usable st -> query_ok (r st))) ->
  respects careful m.
Proof.
  intros H st Hs. destruct (H st) as [H1 [H2 [H3 [H4 H5]]]].
  unfold exec in *. unfold selection_usable. rewrite H1, H2, H3.
  split; [exact Hs | split; [reflexivity |]].
  exists [r st]. split; [reflexivity |].
  constructor; [split; [exact H4 | exact (H5 Hs)] | constructor].
Qed.

Lemma careful_loadUserDocuments : respects careful loadUserDocuments.
Proof.
  apply (careful_request _ (fun st => GetDocuments (userId st))).
  intros st. unfold requests; cbn. rewrite requests_of_app.
  repeat split.
Qed.

Lemma careful_deleteDocument : respects careful deleteDocument.
Proof.
  apply (careful_request _ (fun st => DeleteDocuments (userId st))).
  intros st. unfold requests; cbn. rewrite requests_of_app.
  repeat split.
Qed.

Lemma careful_sendMessage (now : Z) : respects careful (sendMessage now).
Proof.
  intros st Hs. unfold selection_usable in *.
  unfold sendMessage, bind, get, requests. cbn.
  destruct (Js.truthy (Js.trim (inputMessage st))) eqn:Hq; cbn.
  - destruct (length (uploadedDocuments st) =? 0); cbn;
      [| destruct (length (selectedDocuments st) =? 0) eqn:Hn; cbn].
    + split; [exact Hs | split; [reflexivity |]]. exists [].
      rewrite requests_of_app. split; [reflexivity | constructor].
    + split; [exact Hs | split; [reflexivity |]]. exists [].
      rewrite requests_of_app. split; [reflexivity | constructor].
    + split; [exact Hs | split; [reflexivity |]].
      exists [PostQuery (userId st) (inputMessage st) (selectedDocuments st) 5].
      rewrite !requests_of_app. cbn. rewrite app_nil_r.
      split; [reflexivity |]. constructor; [| constructor].
      split; [reflexivity |]. cbn.
      split; [exact Hq | split; [| split; [exact Hs | reflexivity]]].
      intros Hnil. rewrite Hnil in Hn. discriminate Hn.
  - split; [exact Hs | split; [reflexivity |]]. exists [].
    rewrite app_nil_r. split; [reflexivity | constructor].
Qed.

Lemma careful_onDrop (acceptedFiles : list File) (now : Z) :
  respects careful (onDrop acceptedFiles now).
Proof.
  intros st Hs. change (snd (onDrop acceptedFiles now st))
    with (exec (onDrop acceptedFiles now) st).
  rewrite onDrop_unfold. cbv zeta.
  assert (Hnew : Forall (fun r => request_user r = userId st /\ query_ok r)
                   (map (fun f => PostUpload f (userId st)) acceptedFiles)).
  { apply Forall_forall. intros r Hr. apply in_map_iff in Hr.
    destruct Hr as [f [<- _]]. split; [reflexivity | exact I]. }
  destruct (promise_all _) as [newFiles|]; unfold requests; cbn;
    (split; [exact Hs | split; [reflexivity |]]);
    exists (map (fun f => PostUpload f (userId st)) acceptedFiles);
    rewrite ?requests_of_app, requests_of_upload_requests; cbn;
    rewrite ?app_nil_r; (split; [reflexivity | exact Hnew]).
Qed.

Lemma toggle_usable (d : Js.str) (l : list Js.str) :
  Js.truthy d = true ->
  Forall (fun x => Js.truthy x = true) l ->
  Forall (fun x => Js.truthy x = true) (toggle d l).
Proof.
  intros Hd Hl. apply Forall_forall. intros x Hx. apply In_toggle in Hx.
  destruct Hx as [[-> _] | [_ Hx]]; [exact Hd |].
  apply (proj1 (Forall_forall _ _) Hl x Hx).
Qed.

Lemma filter_Boolean_usable (l : list (option Js.str)) :
  Forall (fun x => Js.truthy x = true) (filter_Boolean l).
Proof.
  induction l as [|[s|] l IH]; simpl; [constructor | | exact IH].
  destruct (Js.truthy s) eqn:Hs; [constructor; assumption | exact IH].
Qed.

Lemma careful_cardClick (doc : Document) : respects careful (cardClick doc).
Proof.
  unfold cardClick.
  destruct (docId_of doc) as [d|]; [| apply respects_ret; exact _].
  destruct (Js.truthy d) eqn:Hd; [| apply respects_ret; exact _].
  apply careful_selection. intros l. apply toggle_usable. exact Hd.
Qed.

Lemma careful_selectAllDocuments : respects careful selectAllDocuments.
Proof.
  intros st _. cbn. split; [apply filter_Boolean_usable | split; [reflexivity |]].
  exists []. rewrite app_nil_r. split; [reflexivity | constructor].
Qed.

Ltac careful_prim :=
  match goal with
  | |- respects _ loadUserDocuments => apply careful_loadUserDocuments
  | |- respects _ deleteDocument => apply careful_deleteDocument
  | |- respects _ (sendMessage _) => apply careful_sendMessage
  | |- respects _ (onDrop _ _) => apply careful_onDrop
  | |- respects _ (cardClick _) => apply careful_cardClick
  | |- respects _ selectAllDocuments => apply careful_selectAllDocuments
  | |- respects _ (setSelectedDocuments (fun _ => [])) =>
      apply careful_selection; intros; constructor
  | |- respects _ (setSelectedDocuments _) => fail 1
  | |- respects _ (appendMessage _) =>
      apply careful_same; intros ?; unfold requests; cbn;
      rewrite requests_of_app, app_nil_r; repeat split
  | |- respects _ (emit (Settled _)) =>
      apply careful_same; intros ?; unfold requests; cbn;
      rewrite requests_of_app, app_nil_r; repeat split
  | |- respects _ (emit _) => fail 1
  | _ => frame_prim careful_same; intros ?; repeat split
  end.

Lemma careful_dispatch (ev : Event) : respects careful (dispatch ev).
Proof. destruct ev; respects_walk ltac:(idtac; careful_prim). Qed.

Lemma init_careful (evs : list Event) (t0 : Z) :
  selection_usable (run evs (init t0))
  /\ userId (run evs (init t0)) = userId (init t0)
  /\ Forall (fun r => request_user r = userId (init t0) /\ query_ok r)
       (requests (run evs (init t0))).
Proof.
  destruct (respects_run careful evs careful_dispatch (init t0))
    as [Hs [Hu [new [Hr Hf]]]]; [constructor |].
  split; [exact Hs | split; [exact Hu |]].
  rewrite Hr. exact Hf.
Qed.

(** X8: the session identifier made at page load never changes, and every
    request the component ever issues (listing, upload, query, delete) is
    made for it. *)
Theorem X8_one_session (evs : list Event) (t0 : Z) :
  let st := run evs (init t0) in
  userId st = Js.lit "user_" ++ Js.of_Z t0
  /\ Forall (fun r => request_user r = Js.lit "user_" ++ Js.of_Z t0)
       (requests st).
Proof.
  destruct (init_careful evs t0) as [_ [Hu Hf]].
  split; [exact Hu |].
  apply Forall_forall. intros r Hr.
  apply (proj1 (Forall_forall _ _) Hf r Hr).
Qed.

(** X9: from page load on the selection never holds an empty identifier;
    and every query the component sends through its controls carries a
    question that is not blank, at least one document identifier, no empty
    identifier, and asks for five results. *)
Theorem X9_queries_well_formed (evs : list Event) (t0 : Z)
    (user_id query : Js.str) (doc_ids : list Js.str) (top_k : Z) :
  Forall (fun d => d <> []) (selectedDocuments (run evs (init t0)))
  /\ (In (PostQuery user_id query doc_ids top_k)
         (requests (run evs (init t0))) ->
      Js.truthy (Js.trim query) = true
      /\ doc_ids <> []
      /\ Forall (fun d => d <> []) doc_ids
      /\ top_k = 5%Z).
Proof.
  destruct (init_careful evs t0) as [Hs [_ Hf]].
  assert (Hne : forall l, Forall (fun d => Js.truthy d = true) l ->
                          Forall (fun d : Js.str => d <> []) l).
  { intros l Hl. apply Forall_forall. intros d Hd.
    apply (proj1 (Forall_forall _ _) Hl) in Hd.
    intros ->. discriminate Hd. }
  split; [apply Hne; exact Hs |].
  intros Hin.
  destruct (proj1 (Forall_forall _ _) Hf _ Hin) as [_ [Hq [Hn [Hd Hk]]]].
  split; [exact Hq | split; [exact Hn | split; [apply Hne; exact Hd |]]].
  exact Hk.
Qed.

Lemma X9_queries_well_formed_witness :
  In (PostQuery (Js.lit "user_0") (Js.lit " What is the summary? ")
        [Js.lit "a.pdf"] 5)
     (requests (run upload_select_ask (init 0)))
  /\ Js.truthy (Js.trim (Js.lit " What is the summary? ")) = true
  /\ [Js.lit "a.pdf"] <> [].
Proof.
  assert (H : In (PostQuery (Js.lit "user_0") (Js.lit " What is the summary? ")
                    [Js.lit "a.pdf"] 5)
                 (requests (run upload_select_ask (init 0))))
    by (vm_compute; right; left; reflexivity).
  split; [exact H |].
  destruct (proj2 (X9_queries_well_formed upload_select_ask 0 _ _ _ _) H)
    as [Hq [Hn _]].
  split; [exact Hq | exact Hn].
Defined.

(** ** One question at a time *)

#[local] Instance stays_single_preorder : PreOrder stays_single.
Proof. split; unfold stays_single; [intros st | intros a b c]; auto. Qed.

Lemma single_same {A} (m : M A) :
  (forall st, isLoading (snd (m st)) = isLoading st
              /\ inputMessage (snd (m st)) = inputMessage st
              /\ query_rids (tasks (snd (m st))) = query_rids (tasks st)) ->
  respects stays_single m.
Proof.
  intros H st. destruct (H st) as [H1 [H2 H3]].
  unfold stays_single, one_question. rewrite H1, H2, H3. auto.
Qed.

Lemma take_task_other (p : Task -> bool) (ts : list Task) (t : Task)
    (rest : list Task) :
  (forall r, p (AwaitQuery r) = false) ->
  take_task p ts = Some (t, rest) ->
  query_rids rest = query_rids ts.
Proof.
  intros Hp. revert rest; induction ts as [|a ts IH]; simpl; intros rest;
    [discriminate |].
  destruct (p a) eqn:Ha.
  - intros H; injection H as <- <-.
    destruct a; try reflexivity. rewrite Hp in Ha. discriminate.
  - destruct (take_task p ts) as [[t' r']|]; [| discriminate].
    intros H; injection H as <- <-.
    destruct a; simpl; rewrite (IH r' eq_refl); reflexivity.
Qed.

Lemma take_task_query (rid : nat) (ts : list Task) (t : Task)
    (rest : list Task) :
  take_task (awaits_query rid) ts = Some (t, rest) ->
  length (query_rids ts) = S (length (query_rids rest)).
Proof.
  revert rest; induction ts as [|a ts IH]; simpl; intros rest;
    [discriminate |].
  destruct (awaits_query rid a) eqn:Ha.
  - intros H; injection H as <- <-.
    destruct a; try discriminate. reflexivity.
  - destruct (take_task (awaits_query rid) ts) as [[t' r']|]; [| discriminate].
    intros H; injection H as <- <-.
    destruct a; simpl; rewrite ?(IH r' eq_refl); auto.
Qed.

Ltac single_prim :=
  match goal with
  | |- respects _ (setTasks (fun ts => _ :: ts)) =>
      apply single_same; intros ?; repeat split
  | |- respects _ (setTasks _) => fail 1
  | |- respects _ (setInputMessage _) => fail 1
  | |- respects _ (setIsLoading _) => fail 1
  | |- respects _ (sendMessage _) => fail 1
  | |- respects _ (appendMessage _) =>
      apply single_same; intros ?; repeat split
  | |- respects _ (emit _) => apply single_same; intros ?; repeat split
  | _ => frame_prim single_same; intros ?; repeat split
  end.

Ltac settle_single :=
  let u := fresh "u" in
  let rest := fresh "rest" in
  let Heq := fresh "Heq" in
  let Hq := fresh "Hq" in
  intros st; unfold stays_single, one_question; cbn;
  match goal with
  | |- context [take_task ?p ?ts] =>
      destruct (take_task p ts) as [[u rest]|] eqn:Heq
  end;
  [ pose proof (take_task_other _ _ _ _ (fun r => eq_refl) Heq) as Hq;
    repeat match goal with
           | |- context [match ?x with Fulfilled _ => _ | Rejected _ => _ end] =>
               destruct x; cbn
           | |- context [match promise_all ?x with _ => _ end] =>
               destruct (promise_all x); cbn
           | |- context [match ?x with AwaitList _ => _ | _ => _ end] =>
               destruct x; cbn
           end;
    cbn in Hq; rewrite ?Hq; auto
  | cbn; auto ].

Lemma sendMessage_single (now : Z) (st : State) :
  isLoading st = false -> stays_single st (exec (sendMessage now) st).
Proof.
  intros Hl. unfold stays_single, one_question. rewrite Hl.
  unfold sendMessage, exec, bind, get. cbn.
  destruct (negb (Js.truthy (Js.trim (inputMessage st)))); cbn;
    [rewrite Hl; auto |].
  destruct (length (uploadedDocuments st) =? 0); cbn; [rewrite Hl; auto |].
  destruct (length (selectedDocuments st) =? 0); cbn; [rewrite Hl; auto |].
  intros ->. auto.
Qed.

Lemma single_dispatch (ev : Event) : respects stays_single (dispatch ev).
Proof.
  destruct ev; try solve [respects_walk ltac:(idtac; single_prim)].
  - (* InputChanged *)
    intros st. unfold stays_single, one_question, dispatch, bind, get. cbn.
    unfold textareaDisabled.
    destruct (isLoading st) eqn:Hl; [rewrite orb_true_r; cbn; rewrite Hl; auto |].
    destruct (_ || _); cbn; rewrite Hl; auto.
  - (* KeyPressed *)
    intros st. unfold dispatch, handleKeyPress, bind, get. cbn.
    unfold textareaDisabled.
    destruct (isLoading st) eqn:Hl; [rewrite orb_true_r; reflexivity |].
    rewrite orb_false_r.
    destruct (length (uploadedDocuments st) =? 0); [reflexivity |].
    destruct (_ && _); [| reflexivity].
    apply (sendMessage_single now st Hl).
  - (* SendClicked *)
    intros st. unfold dispatch, bind, get. cbn. unfold sendDisabled.
    destruct (isLoading st) eqn:Hl; [rewrite orb_true_r; reflexivity |].
    destruct (_ || _); [reflexivity |].
    apply (sendMessage_single now st Hl).
  - unfold dispatch, listSettles, bind, get, emit. settle_single.
  - unfold dispatch, uploadSettles, bind, get, emit. settle_single.
  - (* QuerySettles *)
    intros st. unfold stays_single, one_question, dispatch, querySettles,
      bind, get, emit. cbn.
    destruct (take_task (awaits_query rid) (tasks st)) as [[u rest]|] eqn:Heq;
      [| cbn; auto].
    apply take_task_query in Heq.
    destruct (isLoading st).
    + intros [_ H1]. rewrite H1 in Heq. injection Heq as Heq.
      destruct o; cbn; destruct (query_rids rest); cbn in *; congruence.
    + intros H0. rewrite H0 in Heq. discriminate Heq.
  - unfold dispatch, deleteSettles, bind, get, emit. settle_single.
Qed.

(** X10: from page load on, at most one question is in flight: exactly one
    [sendMessage] is parked while [isLoading] is set and none otherwise,
    and while one is parked the input box stays empty and typing, Enter
    and Send change nothing. *)
Theorem X10_one_question_in_flight (evs : list Event) (t0 : Z)
    (value key : Js.str) (shiftKey : bool) (now : Z) :
  let st := run evs (init t0) in
  length (query_rids (tasks st)) = (if isLoading st then 1 else 0)
  /\ (if isLoading st
      then inputMessage st = []
           /\ handle (InputChanged value) st = st
           /\ handle (KeyPressed key shiftKey now) st = st
           /\ handle (SendClicked now) st = st
      else True).
Proof.
  cbv zeta.
  assert (H : one_question (run evs (init t0))).
  { apply (respects_run stays_single evs single_dispatch (init t0)).
    reflexivity. }
  unfold one_question in H.
  destruct (isLoading (run evs (init t0))) eqn:Hl.
  - destruct H as [Hi Hq]. split; [exact Hq |].
    split; [exact Hi |].
    unfold handle, exec, dispatch, bind, get. cbn.
    unfold textareaDisabled, sendDisabled. rewrite Hl, !orb_true_r.
    repeat split.
  - rewrite H. split; [reflexivity | exact I].
Qed.

(** ** Two batches at once *)

Lemma pending_at (base : nat) (files : list File) (j : nat) :
  j < length files ->
  existsb (pending_on (base + j)) (pendings base files) = true.
Proof.
  intros Hj. rewrite (pendings_promises_after base files (fun _ => None)).
  apply pending_after; [exact Hj | intros []].
Qed.

(** X11: [isUploading] is cleared by whichever batch ends first: when a
    second batch is dropped while a first one is in flight and a request of
    the second fails, the uploading indicator goes off and one error entry
    is appended, while the first batch is still parked, waiting for every
    one of its responses. *)
Theorem X11_uploading_flag_is_shared (now1 now2 t : Z) (st : State)
    (first second : list File) (j : nat) (e : AxiosError)
    (Hfirst : first <> []) (Hj : j < length second) :
  let base := length (requests st) in
  let st2 := handle (FilesDropped second now2)
               (handle (FilesDropped first now1) st) in
  let st3 := handle (UploadSettles (base + length first + j) (Rejected e) t)
               st2 in
  isUploading st2 = true
  /\ isUploading st3 = false
  /\ messages st3 = messages st ++ [systemMessage t (upload_error_text e)]
  /\ tasks st3 = AwaitUploads first (pendings base first) :: tasks st
  /\ promise_all (pendings base first) = None
  /\ uploadedDocuments st3 = uploadedDocuments st.
Proof.
  intros base st2 st3.
  assert (Hsecond : second <> []) by (intros ->; cbn in Hj; lia).
  assert (H1 : handle (FilesDropped first now1) st
               = handle (FilesDropped first now1) st) by reflexivity.
  rewrite (onDrop_parks first now1 st Hfirst) in H1 at 2.
  assert (H2 : st2 = handle (FilesDropped second now2)
                       (handle (FilesDropped first now1) st)) by reflexivity.
  rewrite H1 in H2.
  rewrite (onDrop_parks second now2 _ Hsecond) in H2.
  unfold requests in H2. cbn in H2.
  rewrite requests_of_app, requests_of_upload_requests, length_app, length_map
    in H2.
  fold (requests st) in H2. fold base in H2.
  assert (H3 : st3 = handle (UploadSettles (base + length first + j)
                               (Rejected e) t) st2) by reflexivity.
  rewrite (uploadSettles_rejected second
             (pendings (base + length first) second)
             (AwaitUploads first (pendings base first) :: tasks st)
             (base + length first + j) e t st2) in H3.
  - rewrite H3, H2. cbn. repeat split.
    destruct first; [contradiction | reflexivity].
  - rewrite H2. reflexivity.
  - apply pending_at. exact Hj.
Qed.

Lemma X11_uploading_flag_is_shared_witness :
  [file_a] <> [] /\ 0 < length [file_b]
  /\ isUploading
       (handle (UploadSettles (length (requests (init 0)) + length [file_a] + 0)
                  (Rejected network_error) 1500)
          (handle (FilesDropped [file_b] 1200)
             (handle (FilesDropped [file_a] 1000) (init 0))))
     = false.
Proof.
  assert (Ha : [file_a] <> []) by discriminate.
  assert (Hb : 0 < length [file_b]) by (simpl; lia).
  split; [exact Ha | split; [exact Hb |]].
  exact (proj1 (proj2 (X11_uploading_flag_is_shared 1000 1200 1500 (init 0)
                         [file_a] [file_b] 0 network_error Ha Hb))).
Defined.

(** ** A listing that arrives after a delete-all *)

Lemma deleteSettles_keeps_list (r1 r2 : nat) (o : Outcome unit) (now : Z)
    (st : State) :
  In (AwaitList r1) (tasks st) ->
  In (AwaitList r1) (tasks (handle (DeleteSettles r2 o now) st)).
Proof.
  intros Hin. unfold handle, exec, dispatch, deleteSettles, bind, get, emit.
  cbn.
  destruct (take_task (awaits_delete r2) (tasks st)) as [[u rest]|] eqn:Heq;
    [| cbn; exact Hin].
  pose proof (take_task_keeps _ _ _ _ _ Heq Hin eq_refl) as Hrest.
  destruct o; cbn; exact Hrest.
Qed.

(** X12: a pending listing is not cancelled by a delete-all: when the
    delete-all succeeds first, the list and the selection are emptied, and
    the listing response that arrives afterwards puts its documents back
    into the list, with nothing selected. *)
Theorem X12_listing_after_delete (r1 r2 : nat) (now : Z) (st : State)
    (documents : list Document)
    (Hlist : In (AwaitList r1) (tasks st))
    (Hdelete : In (AwaitDelete r2) (tasks st)) :
  let st1 := handle (DeleteSettles r2 (Fulfilled tt) now) st in
  let st2 := handle (ListSettles r1 (Fulfilled (Some documents))) st1 in
  uploadedDocuments st1 = []
  /\ selectedDocuments st1 = []
  /\ uploadedDocuments st2 = documents
  /\ selectedDocuments st2 = []
  /\ messages st2 = messages st ++ [systemMessage now deleted_text].
Proof.
  intros st1 st2.
  destruct (deleteSettles_effect r2 (Fulfilled tt) now st Hdelete)
    as [Hd [Hs Hm]].
  pose proof (deleteSettles_keeps_list r1 r2 (Fulfilled tt) now st Hlist)
    as Hin.
  destruct (listSettles_effect r1 (Fulfilled (Some documents)) st1 Hin)
    as [Hd2 [Hm2 [Hs2 _]]].
  split; [exact Hd | split; [exact Hs | split; [exact Hd2 |]]].
  split; [exact (eq_trans Hs2 Hs) | exact (eq_trans Hm2 Hm)].
Qed.

Lemma X12_listing_after_delete_witness :
  In (AwaitList 0) (tasks refresh_and_delete_state)
  /\ In (AwaitDelete 1) (tasks refresh_and_delete_state)
  /\ uploadedDocuments
       (handle (ListSettles 0 (Fulfilled (Some [listed_a])))
          (handle (DeleteSettles 1 (Fulfilled tt) 9) refresh_and_delete_state))
     = [listed_a].
Proof.
  assert (Hl : In (AwaitList 0) (tasks refresh_and_delete_state))
    by (right; left; reflexivity).
  assert (Hd : In (AwaitDelete 1) (tasks refresh_and_delete_state))
    by (left; reflexivity).
  split; [exact Hl | split; [exact Hd |]].
  exact (proj1 (proj2 (proj2 (X12_listing_after_delete 0 1 9
                                refresh_and_delete_state [listed_a] Hl Hd)))).
Defined.

(** ** What leaves the list and the selection alone *)

#[local] Instance same_list_preorder : PreOrder same_list.
Proof.
  split; unfold same_list; [intros st | intros a b c H1 H2]; congruence.
Qed.

#[local] Instance same_selection_preorder : PreOrder same_selection.
Proof.
  split; unfold same_selection; [intros st | intros a b c H1 H2]; congruence.
Qed.

Ltac same_list_prim :=
  match goal with
  | |- respects _ (setUploadedDocuments _) => fail 1
  | |- respects _ (onDrop _ _) => fail 1
  | |- respects _ (appendMessage _) => intros ?; reflexivity
  | |- respects _ (emit _) => intros ?; reflexivity
  | |- respects _ (setInputMessage _) => intros ?; reflexivity
  | |- respects _ (setIsLoading _) => intros ?; reflexivity
  | |- respects _ (setSelectedDocuments _) => intros ?; reflexivity
  | |- respects _ (setIsUploading _) => intros ?; reflexivity
  | |- respects _ (setTasks _) => intros ?; reflexivity
  | |- respects _ (setTimers _) => intros ?; reflexivity
  end.

Ltac same_selection_prim :=
  match goal with
  | |- respects _ (setSelectedDocuments _) => fail 1
  | |- respects _ (appendMessage _) => intros ?; reflexivity
  | |- respects _ (emit _) => intros ?; reflexivity
  | |- respects _ (setInputMessage _) => intros ?; reflexivity
  | |- respects _ (setIsLoading _) => intros ?; reflexivity
  | |- respects _ (setUploadedDocuments _) => intros ?; reflexivity
  | |- respects _ (setIsUploading _) => intros ?; reflexivity
  | |- respects _ (setTasks _) => intros ?; reflexivity
  | |- respects _ (setTimers _) => intros ?; reflexivity
  end.

Lemma same_list_dispatch (ev : Event) :
  changes_list ev = false -> respects same_list (dispatch ev).
Proof.
  intros Hev.
  destruct ev as [ | | | | files now | | | | | | rid [d|e] | rid [d|e] now
                 | | rid [d|e] now ];
    try discriminate Hev;
    try solve [respects_walk ltac:(idtac; same_list_prim)].
  - (* FilesDropped *)
    intros st. change (same_list st (exec (onDrop files now) st)).
    rewrite onDrop_unfold. cbv zeta. unfold same_list.
    destruct files as [|f files]; cbn; [apply app_nil_r | reflexivity].
Qed.

Lemma same_selection_dispatch (ev : Event) :
  changes_selection ev = false -> respects same_selection (dispatch ev).
Proof.
  intros Hev.
  destruct ev as [ | | | | files now | | | | | | rid o | rid [d|e] now
                 | | rid [d|e] now ];
    try discriminate Hev;
    respects_walk ltac:(idtac; same_selection_prim).
Qed.

(** X13: the document list changes only with a successful response to a
    listing, an upload or a delete-all; typing, sending, clicking cards and
    buttons, dropping files, timers, failed responses and the replies to
    questions leave it as it is. *)
Theorem X13_list_changes_only_by_responses (ev : Event) (st : State)
    (Hev : changes_list ev = false) :
  uploadedDocuments (handle ev st) = uploadedDocuments st.
Proof. exact (same_list_dispatch ev Hev st). Qed.

Lemma X13_list_changes_only_by_responses_witness :
  changes_list (FilesDropped [file_b] 1000) = false
  /\ uploadedDocuments (handle (FilesDropped [file_b] 1000) ready_state)
     = uploadedDocuments ready_state.
Proof.
  split; [reflexivity |].
  exact (X13_list_changes_only_by_responses (FilesDropped [file_b] 1000)
           ready_state eq_refl).
Defined.

(** X14: the selection changes only with a click on a card, on Select All
    or on Clear, or with a successful delete-all; uploads, listings,
    questions and all their responses leave it as it is. *)
Theorem X14_selection_changes_only_by_clicks (ev : Event) (st : State)
    (Hev : changes_selection ev = false) :
  selectedDocuments (handle ev st) = selectedDocuments st.
Proof. exact (same_selection_dispatch ev Hev st). Qed.

Lemma X14_selection_changes_only_by_clicks_witness :
  changes_selection (ListSettles 0 (Fulfilled (Some [listed_a]))) = false
  /\ selectedDocuments
       (handle (ListSettles 0 (Fulfilled (Some [listed_a])))
          (exec loadUserDocuments ready_state))
     = selectedDocuments (exec loadUserDocuments ready_state).
Proof.
  split; [reflexivity |].
  exact (X14_selection_changes_only_by_clicks
           (ListSettles 0 (Fulfilled (Some [listed_a])))
           (exec loadUserDocuments ready_state) eq_refl).
Defined.

(** ** Select All after a refresh *)

(** X15: whatever was selected before, after select-all every selected
    identifier is the identifier of a listed document, and so it is after
    deselect-all; a selection left stale by a refresh is repaired by either
    one. *)
Theorem X15_select_all_repairs (st : State) :
  selection_listed (exec selectAllDocuments st)
  /\ selection_listed (exec deselectAllDocuments st)
  /\ uploadedDocuments (exec selectAllDocuments st) = uploadedDocuments st
  /\ selectedDocuments (exec selectAllDocuments st)
     = filter_Boolean (map docId_of (uploadedDocuments st)).
Proof.
  split; [| split; [| split; reflexivity]].
  - intros docId Hin. cbn in Hin. apply In_filter_Boolean in Hin.
    apply in_map_iff in Hin. destruct Hin as [doc [He Hd]].
    exists doc. split; [exact Hd | exact He].
  - intros docId [].
Qed.
